(** * Exit-Dapp: the ExitVault dashboard, embedded and verified

    A shallow embedding of the three React components of the repository
    ([src/App.jsx], [src/components/ConnectWallet.jsx] and
    [src/components/ExitVault.jsx]) together with the properties of the
    wallet-session and transaction-status lifecycle.

    Modelling conventions.
    - A component's [useState] cells form a record; a handler is a
      computation in a state-and-exception monad over that record.  A handler
      reads the cells through the closure of the render it belongs to, so each
      handler takes one snapshot of the record when it starts and every later
      read of [contract], [account], [amount] ... refers to that snapshot.
    - [await e] is sequencing: the outcome of the awaited promise is either a
      value or a thrown error.  Handlers run without interleaving.
    - Everything the component does to the outside (calls on the provider,
      signer and contract handles, [alert]) is appended to a chronological
      trace, as is every write to the [txStatus] cell.  [console.*] output is
      not part of the model, and the two submissions of [ExitVault.jsx]
      (through the signer, and [withdraw(wei)]) have no event of their own.
    - An async function called without [await] is run to completion at its
      call site; a rejection of its promise reaches nobody.
    - Handles of the ethers library are records of the outcomes of their
      methods, the way a mock handle in a test is; [window.ethereum] is seen
      through the [BrowserProvider] built over it.
    - What belongs to the language or to the ethers library rather than to
      the repository ([parseEther], [formatEther], the [Contract]
      constructor, the comparison [Number(s) <= 0]) is a parameter of the
      handlers. *)

From stdpp Require Import gmap strings list pretty.
From Stdlib Require Import Ascii ZArith.

Local Open Scope string_scope.

(** ** JavaScript values *)

(** A thrown value; the wallet and the ethers library throw objects, and
    so a thrown value is taken to be one.  [err_code] is [Some n] when [err.code] is the number
    [n] (and [None] when it is absent or not a number), [err_data_code]
    likewise for [err.data.code]; [err_reason] and [err_message] are the
    string fields when present; [err_text] is what string concatenation
    makes of the value itself. *)
Record js_error := {
  err_code : option Z;
  err_data_code : option Z;
  err_reason : option string;
  err_message : option string;
  err_text : string
}.

(** Outcome of an expression that may throw (or of an awaited promise). *)
Inductive result (A : Type) : Type :=
| Ok (a : A)
| Throw (e : js_error).
Arguments Ok {A} a.
Arguments Throw {A} e.

(** Truthiness of the values the components test with [!x] and [x && _]. *)
Definition truthy_str (s : string) : bool := negb (String.eqb s "").

Definition truthy_ostr (s : option string) : bool :=
  match s with
  | Some s => truthy_str s
  | None => false
  end.

Definition truthy_obj {A : Type} (o : option A) : bool :=
  match o with
  | Some _ => true
  | None => false
  end.

(** [a || b] on optional strings: the first truthy operand. *)
Definition or_else (a : option string) (b : string) : string :=
  match a with
  | Some s => if truthy_str s then s else b
  | None => b
  end.

(** [a ?? b] on optional strings: the first operand unless it is nullish. *)
Definition nullish_else (a : option string) (b : string) : string :=
  match a with
  | Some s => s
  | None => b
  end.

(** ** Handles of the ethers library *)

Record Receipt := { status : Z }.

Record TxResponse := {
  hash : string;
  wait : result (option Receipt)
}.

(** A contract handle bound to the deployed ExitVault.  [App.jsx] calls
    [invest], [withdraw()] and [balances]; [ExitVault.jsx] calls
    [getBalance], [removeAllListeners] and [on]. *)
Record Contract := {
  c_invest : Z -> result TxResponse;
  c_withdraw : result TxResponse;
  c_balances : string -> result Z;
  c_getBalance : string -> result Z;
  c_removeAllListeners : string -> result unit
}.

Record Signer := { getAddress : result string }.

(** A [BrowserProvider] over the injected wallet. *)
Record Provider := {
  send_eth_requestAccounts : result unit;
  getSigner : result Signer;
  getNetwork : result Z
}.

(** What the components use of the [ethers] module.  [parseEther] throws
    on a string that is not a decimal number of at most 18 fraction digits;
    [newContract signer] is [new ethers.Contract(address, abi, signer)] at
    the configured address and interface description. *)
Record Ethers := {
  parseEther : string -> result Z;
  formatEther : Z -> string;
  newContract : Signer -> result Contract
}.

(** The object the wallet connector hands to its callback:
    [{ provider, signer, contract, address }]. *)
Record connection := {
  conn_provider : Provider;
  conn_signer : Signer;
  conn_contract : Contract;
  conn_address : string
}.

Inductive tx_status := pending | confirmed | failed.

(** ** Observable trace *)

Inductive event :=
| Alert (msg : string)
| RequestAccounts
| GetSigner
| GetAddress
| NewContract
| GetNetwork
| CallInvest (c : Contract) (value : Z)
| CallWithdraw (c : Contract)
| CallWait (tx : TxResponse)
| CallBalances (c : Contract) (addr : string)
| CallGetBalance (c : Contract) (addr : string)
| RemoveAllListeners (c : Contract) (name : string)
| Subscribe (c : Contract) (name : string)
| WroteTxStatus (s : option tx_status).

(** ** The handler monad: component state, trace, exceptions *)

Section Monad.
Context {St : Type}.

Definition M (A : Type) : Type :=
    St -> list event -> result A * St * list event.

Definition ret {A} (a : A) : M A := fun s t => (Ok a, s, t).

Definition bind {A B} (m : M A) (k : A -> M B) : M B :=
    fun s t =>
      match m s t with
      | (Ok a, s', t') => k a s' t'
      | (Throw e, s', t') => (Throw e, s', t')
      end.

Definition get : M St := fun s t => (Ok s, s, t).

Definition modify (f : St -> St) : M unit := fun s t => (Ok tt, f s, t).

Definition emit (e : event) : M unit := fun s t => (Ok tt, s, (t ++ [e])%list).

  (** An expression whose outcome is [r]. *)
Definition eval {A} (r : result A) : M A := fun s t => (r, s, t).

  (** A call on a handle: the call is traced, then its outcome delivered. *)
Definition call {A} (e : event) (r : result A) : M A :=
    bind (emit e) (fun _ => eval r).

  (** [try { body } catch (err) { handler }] *)
Definition try_catch {A} (body : M A) (handler : js_error -> M A) : M A :=
    fun s t =>
      match body s t with
      | (Ok a, s', t') => (Ok a, s', t')
      | (Throw e, s', t') => handler e s' t'
      end.

  (** [try { body } finally { fin }] *)
Definition try_finally {A} (body : M A) (fin : M unit) : M A :=
    fun s t =>
      match body s t with
      | (r, s', t') =>
          match fin s' t' with
          | (Ok _, s'', t'') => (r, s'', t'')
          | (Throw e, s'', t'') => (Throw e, s'', t'')
          end
      end.

  (** An async function called without [await]: a rejection of its promise
      reaches nobody. *)
Definition detached (m : M unit) : M unit :=
    try_catch m (fun _ => ret tt).
End Monad.
Arguments M St A : clear implicits.

Declare Scope handler_scope.
Delimit Scope handler_scope with handler.
Notation "x <- c1 ;; c2" := (bind c1 (fun x => c2))
  (at level 100, c1 at next level, right associativity) : handler_scope.
Notation "c1 ;; c2" := (bind c1 (fun _ => c2))
  (at level 100, right associativity) : handler_scope.
Local Open Scope handler_scope.

(** Projections of a finished run. *)
Definition outcome {St A} (r : result A * St * list event) : result A := r.1.1.
Definition final {St A} (r : result A * St * list event) : St := r.1.2.
Definition trace {St A} (r : result A * St * list event) : list event := r.2.

(** ** [src/components/ExitVault.jsx] *)

Module ExitVaultUI.

  (** An entry of the activity log: [{ hash, note, time }]. *)
Record tx_entry := {
    e_hash : string;
    e_note : string;
    e_time : string
  }.

Record state := {
    provider : option Provider;
    signer : option Signer;
    account : option string;
    contract : option Contract;
    balanceEth : string;
    inputEth : string;
    status : string;
    txs : list tx_entry
  }.

Definition initial : state := {|
    provider := None;
    signer := None;
    account := None;
    contract := None;
    balanceEth := "0.0";
    inputEth := "";
    status := "";
    txs := []
  |}.

Definition with_provider v (s : state) : state :=
    {| provider := v; signer := signer s; account := account s;
       contract := contract s; balanceEth := balanceEth s;
       inputEth := inputEth s; status := status s; txs := txs s |}.
Definition with_signer v (s : state) : state :=
    {| provider := provider s; signer := v; account := account s;
       contract := contract s; balanceEth := balanceEth s;
       inputEth := inputEth s; status := status s; txs := txs s |}.
Definition with_account v (s : state) : state :=
    {| provider := provider s; signer := signer s; account := v;
       contract := contract s; balanceEth := balanceEth s;
       inputEth := inputEth s; status := status s; txs := txs s |}.
Definition with_contract v (s : state) : state :=
    {| provider := provider s; signer := signer s; account := account s;
       contract := v; balanceEth := balanceEth s;
       inputEth := inputEth s; status := status s; txs := txs s |}.
Definition with_balanceEth v (s : state) : state :=
    {| provider := provider s; signer := signer s; account := account s;
       contract := contract s; balanceEth := v;
       inputEth := inputEth s; status := status s; txs := txs s |}.
Definition with_status v (s : state) : state :=
    {| provider := provider s; signer := signer s; account := account s;
       contract := contract s; balanceEth := balanceEth s;
       inputEth := inputEth s; status := v; txs := txs s |}.
Definition with_txs (f : list tx_entry -> list tx_entry) (s : state) : state :=
    {| provider := provider s; signer := signer s; account := account s;
       contract := contract s; balanceEth := balanceEth s;
       inputEth := inputEth s; status := status s; txs := f (txs s) |}.

Definition setProvider v : M state unit := modify (with_provider v).
Definition setSigner v : M state unit := modify (with_signer v).
Definition setAccount v : M state unit := modify (with_account v).
Definition setContract v : M state unit := modify (with_contract v).
Definition setBalanceEth v : M state unit := modify (with_balanceEth v).
Definition setStatus v : M state unit := modify (with_status v).
  (** [setTxs] is only ever used with an updater function. *)
Definition setTxs f : M state unit := modify (with_txs f).

  (** [addTx(hash, note)]; [now] is what [new Date().toLocaleString()]
      returns at the call:
      [setTxs((s) => [{ hash, note, time }, ...s].slice(0, 20))]. *)
Definition addTx (now hash note : string) : M state unit :=
    setTxs (fun s =>
      take 20 ({| e_hash := hash; e_note := note; e_time := now |} :: s)).

  (** A sequence of [addTx] calls, first call first. *)
Fixpoint addTx_all (calls : list tx_entry) : M state unit :=
    match calls with
    | [] => ret tt
    | e :: rest => addTx (e_time e) (e_hash e) (e_note e) ;; addTx_all rest
    end.

Section Handlers.
Variable ethers : Ethers.
Variable window_ethereum : option Provider.

(** [fetchBalance(c = contract, addr = account)]; a caller that leaves the
    arguments out passes the cells of its snapshot. *)
Definition fetchBalance (c : option Contract) (addr : option string)
  : M state unit :=
  match c, addr with
  | Some c, Some addr =>
      if negb (truthy_str addr) then ret tt else
      try_catch
        (bal <- call (CallGetBalance c addr) (c_getBalance c addr) ;;
         let eth := formatEther ethers bal in
         setBalanceEth eth)
        (fun err =>
           setStatus ("Failed to fetch balance: "
                      +:+ or_else (err_message err) (err_text err)))
  | _, _ => ret tt
  end.

(** [listenEvents(c)]: drop the previous listeners (errors ignored), then
    subscribe to the two contract events. *)
Definition listenEvents (c : option Contract) : M state unit :=
  match c with
  | None => ret tt
  | Some c =>
      try_catch
        (call (RemoveAllListeners c "Invest") (c_removeAllListeners c "Invest") ;;
         call (RemoveAllListeners c "Withdraw") (c_removeAllListeners c "Withdraw"))
        (fun _ => ret tt) ;;
      emit (Subscribe c "Invest") ;;
      emit (Subscribe c "Withdraw")
  end.

Definition connectWallet : M state unit :=
  match window_ethereum with
  | None => setStatus "No injected wallet found (install MetaMask)"
  | Some browserProvider =>
      try_catch
        (call RequestAccounts (send_eth_requestAccounts browserProvider) ;;
         signer <- call GetSigner (getSigner browserProvider) ;;
         account <- call GetAddress (getAddress signer) ;;
         setProvider (Some browserProvider) ;;
         setSigner (Some signer) ;;
         setAccount (Some account) ;;
         c <- call NewContract (newContract ethers signer) ;;
         setContract (Some c) ;;
         setStatus ("Wallet connected: " +:+ account) ;;
         detached (fetchBalance (Some c) (Some account)) ;;
         listenEvents (Some c))
        (fun err =>
           setStatus ("Failed to connect wallet: "
                      +:+ or_else (err_message err) (err_text err)))
  end.

End Handlers.

(** *** The remaining handlers of the component *)

Definition with_inputEth v (s : state) : state :=
  {| provider := provider s; signer := signer s; account := account s;
     contract := contract s; balanceEth := balanceEth s;
     inputEth := v; status := status s; txs := txs s |}.

Definition setInputEth v : M state unit := modify (with_inputEth v).

Section Actions.
Variable ethers : Ethers.
(** [nonpositive s] is the test [Number(s) <= 0] of the language. *)
Variable nonpositive : string -> bool.
(** [sendTransaction signer value] is
    [signer.sendTransaction({ to: CONTRACT_ADDRESS, value })] and
    [withdraw c wei] is [c.withdraw(wei)], the one-argument method of this
    component's interface description.  The trace has no event for either;
    their outcomes are delivered untraced. *)
Variable sendTransaction : Signer -> Z -> result TxResponse.
Variable withdraw : Contract -> Z -> result TxResponse.
(** [s.toLowerCase()] of the language. *)
Variable toLowerCase : string -> string.

(** [doInvest]; [sent_at] and [confirmed_at] are what the clock reads at
    its two appends to the activity log. *)
Definition doInvest (sent_at confirmed_at : string) : M state unit :=
  snap <- get ;;
  match contract snap, signer snap with
  | Some _, Some signer =>
      if negb (truthy_str (inputEth snap)) || nonpositive (inputEth snap)
      then setStatus "Enter valid ETH amount"
      else
        try_catch
          (setStatus "Sending transaction..." ;;
           value <- eval (parseEther ethers (inputEth snap)) ;;
           tx <- eval (sendTransaction signer value) ;;
           addTx sent_at (hash tx) "Invest (sent)" ;;
           setStatus "Waiting for confirmation..." ;;
           call (CallWait tx) (wait tx) ;;
           addTx confirmed_at (hash tx) "Confirmed: Invest" ;;
           setStatus "Invest confirmed" ;;
           setInputEth "" ;;
           detached (fetchBalance ethers (contract snap) (account snap)))
          (fun err =>
             setStatus ("Tx failed: "
                        +:+ or_else (err_message err) (err_text err)))
  | _, _ => setStatus "Connect wallet first"
  end.

(** [doWithdraw]; [answer] is what [prompt] returns when it is shown
    ([None] when the dialog is cancelled). *)
Definition doWithdraw (answer : option string)
  (initiated_at confirmed_at : string) : M state unit :=
  snap <- get ;;
  match contract snap, signer snap with
  | Some contract, Some _ =>
      match answer with
      | None => ret tt
      | Some amount =>
          if negb (truthy_str amount) then ret tt else
          try_catch
            (wei <- eval (parseEther ethers amount) ;;
             setStatus "Sending withdraw tx..." ;;
             tx <- eval (withdraw contract wei) ;;
             addTx initiated_at (hash tx)
               ("Withdraw initiated " +:+ amount +:+ " ETH") ;;
             call (CallWait tx) (wait tx) ;;
             addTx confirmed_at (hash tx)
               ("Withdraw confirmed " +:+ amount +:+ " ETH") ;;
             setStatus "Withdraw confirmed" ;;
             detached (fetchBalance ethers (ExitVaultUI.contract snap)
                         (account snap)))
            (fun err =>
               setStatus ("Withdraw failed: "
                          +:+ or_else (err_message err) (err_text err)))
      end
  | _, _ => setStatus "Connect wallet first"
  end.

(** The "Disconnect" button. *)
Definition disconnect : M state unit :=
  setAccount None ;;
  setContract None ;;
  setSigner None ;;
  setStatus "Disconnected".

(** The "Refresh" button: [fetchBalance()]. *)
Definition refresh : M state unit :=
  snap <- get ;;
  fetchBalance ethers (contract snap) (account snap).

(** The listeners [listenEvents] subscribes.  A listener reads [account]
    and calls [fetchBalance()] through the closure of the render in which
    [listenEvents] ran: [snap] is the state of that render, while the
    append to the log is an updater applied to the state of the time the
    event arrives.  [now] is what the clock reads then. *)
Definition onInvestEvent (snap : state) (now investor : string) (amount : Z)
  : M state unit :=
  let eth := formatEther ethers amount in
  addTx now ("event:" +:+ investor +:+ ":" +:+ pretty amount)
    ("Invest event " +:+ investor +:+ " +" +:+ eth +:+ " ETH") ;;
  if String.eqb (toLowerCase investor)
       (toLowerCase (or_else (account snap) ""))
  then detached (fetchBalance ethers (contract snap) (account snap))
  else ret tt.

Definition onWithdrawEvent (snap : state) (now investor : string) (amount : Z)
  : M state unit :=
  let eth := formatEther ethers amount in
  addTx now ("event:" +:+ investor +:+ ":" +:+ pretty amount)
    ("Withdraw event " +:+ investor +:+ " -" +:+ eth +:+ " ETH") ;;
  if String.eqb (toLowerCase investor)
       (toLowerCase (or_else (account snap) ""))
  then detached (fetchBalance ethers (contract snap) (account snap))
  else ret tt.

End Actions.

End ExitVaultUI.

(** ** [src/components/ConnectWallet.jsx] *)

Module ConnectWallet.

Section Handlers.
Context {St : Type}.
Variable ethers : Ethers.
Variable window_ethereum : option Provider.

(** [connectWallet], for the component's [onConnected] property ([None]
    when the property is left out: [onConnected?.(...)]). *)
Definition connectWallet (onConnected : option (connection -> M St unit))
  : M St unit :=
  try_catch
    (match window_ethereum with
     | None => emit (Alert "MetaMask not detected")
     | Some prov =>
         call RequestAccounts (send_eth_requestAccounts prov) ;;
         signer <- call GetSigner (getSigner prov) ;;
         addr <- call GetAddress (getAddress signer) ;;
         vault <- call NewContract (newContract ethers signer) ;;
         match onConnected with
         | Some f =>
             f {| conn_provider := prov; conn_signer := signer;
                  conn_contract := vault; conn_address := addr |}
         | None => ret tt
         end
     end)
    (fun err =>
       emit (Alert ("Failed to connect wallet: "
                    +:+ nullish_else (err_message err) (err_text err)))).

End Handlers.

End ConnectWallet.

(** ** [src/App.jsx] *)

Module App.

Definition EXPLORER_BY_CHAIN : gmap Z string :=
  {[ 1%Z := "https://etherscan.io";
     5%Z := "https://goerli.etherscan.io";
     11155111%Z := "https://sepolia.etherscan.io" ]}.

(** [EXPLORER_BY_CHAIN[chainId] ?? "https://etherscan.io"] *)
Definition explorerBaseForChain (chainId : Z) : string :=
  default "https://etherscan.io" (EXPLORER_BY_CHAIN !! chainId).

Record state := {
  account : option string;
  provider : option Provider;
  contract : option Contract;
  balance : string;
  amount : string;
  loading : bool;
  txStatus : option tx_status;
  txHash : option string;
  message : string;
  explorerBase : string
}.

Definition initial : state := {|
  account := None;
  provider := None;
  contract := None;
  balance := "0";
  amount := "";
  loading := false;
  txStatus := None;
  txHash := None;
  message := "";
  explorerBase := default "" (EXPLORER_BY_CHAIN !! 1%Z)
|}.

Definition with_account v (s : state) : state :=
  {| account := v; provider := provider s; contract := contract s;
     balance := balance s; amount := amount s; loading := loading s;
     txStatus := txStatus s; txHash := txHash s; message := message s;
     explorerBase := explorerBase s |}.
Definition with_provider v (s : state) : state :=
  {| account := account s; provider := v; contract := contract s;
     balance := balance s; amount := amount s; loading := loading s;
     txStatus := txStatus s; txHash := txHash s; message := message s;
     explorerBase := explorerBase s |}.
Definition with_contract v (s : state) : state :=
  {| account := account s; provider := provider s; contract := v;
     balance := balance s; amount := amount s; loading := loading s;
     txStatus := txStatus s; txHash := txHash s; message := message s;
     explorerBase := explorerBase s |}.
Definition with_balance v (s : state) : state :=
  {| account := account s; provider := provider s; contract := contract s;
     balance := v; amount := amount s; loading := loading s;
     txStatus := txStatus s; txHash := txHash s; message := message s;
     explorerBase := explorerBase s |}.
Definition with_amount v (s : state) : state :=
  {| account := account s; provider := provider s; contract := contract s;
     balance := balance s; amount := v; loading := loading s;
     txStatus := txStatus s; txHash := txHash s; message := message s;
     explorerBase := explorerBase s |}.
Definition with_loading v (s : state) : state :=
  {| account := account s; provider := provider s; contract := contract s;
     balance := balance s; amount := amount s; loading := v;
     txStatus := txStatus s; txHash := txHash s; message := message s;
     explorerBase := explorerBase s |}.
Definition with_txStatus v (s : state) : state :=
  {| account := account s; provider := provider s; contract := contract s;
     balance := balance s; amount := amount s; loading := loading s;
     txStatus := v; txHash := txHash s; message := message s;
     explorerBase := explorerBase s |}.
Definition with_txHash v (s : state) : state :=
  {| account := account s; provider := provider s; contract := contract s;
     balance := balance s; amount := amount s; loading := loading s;
     txStatus := txStatus s; txHash := v; message := message s;
     explorerBase := explorerBase s |}.
Definition with_message v (s : state) : state :=
  {| account := account s; provider := provider s; contract := contract s;
     balance := balance s; amount := amount s; loading := loading s;
     txStatus := txStatus s; txHash := txHash s; message := v;
     explorerBase := explorerBase s |}.
Definition with_explorerBase v (s : state) : state :=
  {| account := account s; provider := provider s; contract := contract s;
     balance := balance s; amount := amount s; loading := loading s;
     txStatus := txStatus s; txHash := txHash s; message := message s;
     explorerBase := v |}.

Definition setAccount v : M state unit := modify (with_account v).
Definition setProvider v : M state unit := modify (with_provider v).
Definition setContract v : M state unit := modify (with_contract v).
Definition setBalance v : M state unit := modify (with_balance v).
Definition setAmount v : M state unit := modify (with_amount v).
Definition setLoading v : M state unit := modify (with_loading v).
(** Writes to the [txStatus] cell are also recorded in the trace. *)
Definition setTxStatus v : M state unit :=
  modify (with_txStatus v) ;; emit (WroteTxStatus v).
Definition setTxHash v : M state unit := modify (with_txHash v).
Definition setMessage v : M state unit := modify (with_message v).
Definition setExplorerBase v : M state unit := modify (with_explorerBase v).

(** [receipt && receipt.status === 1] *)
Definition receipt_ok (receipt : option Receipt) : bool :=
  match receipt with
  | Some r => Z.eqb (status r) 1
  | None => false
  end.

(** [err?.code === 4001 || err?.data?.code === 4001] *)
Definition user_rejected (err : js_error) : bool :=
  bool_decide (err_code err = Some 4001%Z)
  || bool_decide (err_data_code err = Some 4001%Z).

(** [err?.reason || err?.message || err] *)
Definition reason_of (err : js_error) : string :=
  or_else (err_reason err) (or_else (err_message err) (err_text err)).

Section Handlers.
Variable ethers : Ethers.
(** [nonpositive s] is the test [Number(s) <= 0] of the language. *)
Variable nonpositive : string -> bool.

(** [fetchVaultBalance(vault = contract, addr = account)]; a caller that
    leaves the arguments out passes the cells of its snapshot. *)
Definition fetchVaultBalance (vault : option Contract) (addr : option string)
  : M state unit :=
  try_finally
    (try_catch
       (match vault, addr with
        | Some vault, Some addr =>
            if negb (truthy_str addr) then ret tt else
            setLoading true ;;
            raw <- call (CallBalances vault addr) (c_balances vault addr) ;;
            let eth := formatEther ethers raw in
            setBalance eth ;;
            setMessage "Balance updated"
        | _, _ => ret tt
        end)
       (fun err =>
          setMessage ("Failed to fetch balance: "
                      +:+ nullish_else (err_message err) (err_text err))))
    (setLoading false).

(** The "Refresh" button: [fetchVaultBalance()]. *)
Definition refresh : M state unit :=
  snap <- get ;;
  fetchVaultBalance (contract snap) (account snap).

Definition handleConnected (c : connection) : M state unit :=
  let prov := conn_provider c in
  let vault := conn_contract c in
  let address := conn_address c in
  setProvider (Some prov) ;;
  setAccount (Some address) ;;
  setContract (Some vault) ;;
  setMessage ("Wallet connected: " +:+ address) ;;
  try_catch
    (chainId <- call GetNetwork (getNetwork prov) ;;
     setExplorerBase (explorerBaseForChain chainId))
    (fun _ => ret tt) ;;
  fetchVaultBalance (Some vault) (Some address).

(** The [onConnected] property the dashboard gives to the connector: an
    arrow function returning the promise of [handleConnected]. *)
Definition onConnected (c : connection) : M state unit :=
  detached (handleConnected c).

Definition invest : M state unit :=
  snap <- get ;;
  match contract snap with
  | None => setMessage "Connect wallet first"
  | Some contract =>
      if negb (truthy_str (amount snap)) || nonpositive (amount snap)
      then setMessage "Enter a valid amount in ETH"
      else
        try_finally
          (try_catch
             (setTxStatus None ;;
              setTxHash None ;;
              setLoading true ;;
              setMessage "Preparing transaction..." ;;
              value <- eval (parseEther ethers (amount snap)) ;;
              txResponse <- call (CallInvest contract value)
                                 (c_invest contract value) ;;
              setTxStatus (Some pending) ;;
              setTxHash (Some (hash txResponse)) ;;
              setMessage "Transaction submitted. Waiting for confirmation..." ;;
              receipt <- call (CallWait txResponse) (wait txResponse) ;;
              (if receipt_ok receipt then
                 setTxStatus (Some confirmed) ;;
                 setMessage ("Investment confirmed — Tx: " +:+ hash txResponse)
               else
                 setTxStatus (Some failed) ;;
                 setMessage ("Transaction failed (receipt.status !== 1). Tx: "
                             +:+ hash txResponse)) ;;
              fetchVaultBalance (Some contract) (account snap) ;;
              setAmount "")
             (fun err =>
                (if user_rejected err then
                   setMessage "Transaction rejected by user."
                 else
                   setMessage ("Investment failed: " +:+ reason_of err)) ;;
                setTxStatus (Some failed)))
          (setLoading false)
  end.

Definition withdraw : M state unit :=
  snap <- get ;;
  match contract snap with
  | None => setMessage "Connect wallet first"
  | Some contract =>
      try_finally
        (try_catch
           (setTxStatus None ;;
            setTxHash None ;;
            setLoading true ;;
            setMessage "Submitting withdrawal..." ;;
            txResponse <- call (CallWithdraw contract) (c_withdraw contract) ;;
            setTxStatus (Some pending) ;;
            setTxHash (Some (hash txResponse)) ;;
            setMessage "Withdrawal submitted. Waiting for confirmation..." ;;
            receipt <- call (CallWait txResponse) (wait txResponse) ;;
            (if receipt_ok receipt then
               setTxStatus (Some confirmed) ;;
               setMessage ("Withdrawal confirmed — Tx: " +:+ hash txResponse)
             else
               setTxStatus (Some failed) ;;
               setMessage ("Withdrawal failed — Tx: " +:+ hash txResponse)) ;;
            fetchVaultBalance (Some contract) (account snap))
           (fun err =>
              (if user_rejected err then
                 setMessage "Transaction rejected by user."
               else
                 setMessage ("Withdrawal failed: " +:+ reason_of err)) ;;
              setTxStatus (Some failed)))
        (setLoading false)
  end.

(** The [accountsChanged] listener; [accounts] is [None] for a nullish
    argument. *)
Definition onAccountsChanged (accounts : option (list string))
  : M state unit :=
  snap <- get ;;
  match accounts with
  | None | Some [] =>
      setAccount None ;;
      setContract None ;;
      setMessage "Disconnected"
  | Some (first :: _) =>
      setAccount (Some first) ;;
      setMessage ("Account changed: " +:+ first) ;;
      match contract snap with
      | Some contract =>
          detached (fetchVaultBalance (Some contract) (Some first))
      | None => ret tt
      end
  end.

End Handlers.

(** The explorer link of the rendered page: shown inside the connected
    branch ([account ? ... : ...]) when [txHash] is truthy, with
    [href={`${explorerBase}/tx/${txHash}`}]. *)
Definition explorer_link (s : state) : option string :=
  if truthy_ostr (account s) then
    match txHash s with
    | Some h =>
        if truthy_str h then Some (explorerBase s +:+ "/tx/" +:+ h) else None
    | None => None
    end
  else None.

End App.

(** ** The two actions of the dashboard, uniformly *)

Inductive action := Invest | Withdraw.

Section Actions.
Variable ethers : Ethers.
Variable nonpositive : string -> bool.

Definition run (a : action) : M App.state unit :=
  match a with
  | Invest => App.invest ethers nonpositive
  | Withdraw => App.withdraw ethers
  end.

(** The amount guard of an action: [invest] returns early on
    [!amount || Number(amount) <= 0]; [withdraw] has no such guard. *)
Definition amount_ok (a : action) (s : App.state) : bool :=
  match a with
  | Invest => truthy_str (App.amount s) && negb (nonpositive (App.amount s))
  | Withdraw => true
  end.

(** Both guards: a contract handle is present and the amount guard passes. *)
Definition guards_pass (a : action) (s : App.state) : bool :=
  truthy_obj (App.contract s) && amount_ok a s.

(** The outcome of the submission an action makes on the handle [c]:
    [contract.invest({ value })] with [value = parseEther(amount)], or
    [contract.withdraw()]. *)
Definition submission (a : action) (s : App.state) (c : Contract)
  : result TxResponse :=
  match a with
  | Invest =>
      match parseEther ethers (App.amount s) with
      | Ok value => c_invest c value
      | Throw e => Throw e
      end
  | Withdraw => c_withdraw c
  end.

(** The message of the non-rejection branch of an action's [catch]. *)
Definition generic_failure (a : action) (err : js_error) : string :=
  match a with
  | Invest => "Investment failed: " +:+ App.reason_of err
  | Withdraw => "Withdrawal failed: " +:+ App.reason_of err
  end.

End Actions.

(** The writes to the [txStatus] cell recorded in a trace, in order. *)
Definition status_writes (t : list event) : list (option tx_status) :=
  omap (fun e => match e with WroteTxStatus s => Some s | _ => None end) t.

(** The balance reads recorded in a trace: the handle read and the address
    asked for, in order. *)
Definition balance_reads (t : list event) : list (Contract * string) :=
  omap (fun e => match e with CallBalances c a => Some (c, a) | _ => None end) t.

(** What [fetchVaultBalance(c, addr)] adds to the trace: one read, unless
    [addr] is falsy. *)
Definition refresh_of (c : Contract) (addr : option string) : list event :=
  match addr with
  | Some a => if truthy_str a then [CallBalances c a] else []
  | None => []
  end.

(** The transitions of the transaction status: [none -> pending] when the
    submission is accepted, [pending -> confirmed] and [pending -> failed]
    on the receipt, and [none -> failed] when the submission throws. *)
Inductive status_step : option tx_status -> option tx_status -> Prop :=
| step_accepted : status_step None (Some pending)
| step_confirmed : status_step (Some pending) (Some confirmed)
| step_failed : status_step (Some pending) (Some failed)
| step_thrown : status_step None (Some failed).

Fixpoint status_path (from : option tx_status)
  (w : list (option tx_status)) : Prop :=
  match w with
  | [] => True
  | x :: rest => status_step from x /\ status_path x rest
  end.

(** The steps both connectors await, in the order both perform them:
    authorization, signer, address, contract handle. *)
Definition handshake (ethers : Ethers) (prov : Provider) : result connection :=
  match send_eth_requestAccounts prov with
  | Throw e => Throw e
  | Ok _ =>
      match getSigner prov with
      | Throw e => Throw e
      | Ok signer =>
          match getAddress signer with
          | Throw e => Throw e
          | Ok addr =>
              match newContract ethers signer with
              | Throw e => Throw e
              | Ok vault =>
                  Ok {| conn_provider := prov; conn_signer := signer;
                        conn_contract := vault; conn_address := addr |}
              end
          end
      end
  end.

(** The trace of a completed handshake. *)
Definition handshake_calls : list event :=
  [RequestAccounts; GetSigner; GetAddress; NewContract].

(** The cap of the activity log of [ExitVault.jsx], and the handlers that
    keep it whatever they return or throw. *)
Definition log_capped (s : ExitVaultUI.state) : Prop :=
  length (ExitVaultUI.txs s) <= 20.

Definition keeps_log_capped {A} (m : M ExitVaultUI.state A) : Prop :=
  forall s t, log_capped s -> log_capped (final (m s t)).

(** What can happen to the page of [ExitVault.jsx]: its buttons, its
    input field and the two contract events.  A listener carries the
    snapshot of the render that subscribed it. *)
Inductive ui_event :=
| ClickConnect
| ClickDisconnect
| ClickRefresh
| TypeAmount (text : string)
| ClickInvest (sent_at confirmed_at : string)
| ClickWithdraw (answer : option string) (initiated_at confirmed_at : string)
| InvestEvent (snap : ExitVaultUI.state) (now investor : string) (amount : Z)
| WithdrawEvent (snap : ExitVaultUI.state) (now investor : string) (amount : Z).

Section Component.
Variable ethers : Ethers.
Variable nonpositive : string -> bool.
Variable sendTransaction : Signer -> Z -> result TxResponse.
Variable withdraw : Contract -> Z -> result TxResponse.
Variable toLowerCase : string -> string.
Variable window_ethereum : option Provider.

Definition handle (ev : ui_event) : M ExitVaultUI.state unit :=
  match ev with
  | ClickConnect => ExitVaultUI.connectWallet ethers window_ethereum
  | ClickDisconnect => ExitVaultUI.disconnect
  | ClickRefresh => ExitVaultUI.refresh ethers
  | TypeAmount text => ExitVaultUI.setInputEth text
  | ClickInvest sent_at confirmed_at =>
      ExitVaultUI.doInvest ethers nonpositive sendTransaction
        sent_at confirmed_at
  | ClickWithdraw answer initiated_at confirmed_at =>
      ExitVaultUI.doWithdraw ethers withdraw answer initiated_at confirmed_at
  | InvestEvent snap now investor amount =>
      ExitVaultUI.onInvestEvent ethers toLowerCase snap now investor amount
  | WithdrawEvent snap now investor amount =>
      ExitVaultUI.onWithdrawEvent ethers toLowerCase snap now investor amount
  end.

(** The page after the events [evs], handled one after the other. *)
Fixpoint page_after (evs : list ui_event) (s : ExitVaultUI.state)
  : ExitVaultUI.state :=
  match evs with
  | [] => s
  | ev :: rest => page_after rest (final (handle ev s []))
  end.

End Component.


Section Dashboard.
Variable ethers : Ethers.
Variable nonpositive : string -> bool.



End Dashboard.


(** ** Mock handles, for running the handlers on concrete inputs *)

Module Mock.

Definition rejection : js_error := {|
  err_code := Some 4001%Z;
  err_data_code := None;
  err_reason := None;
  err_message := Some "User rejected the request.";
  err_text := "Error: User rejected the request."
|}.

Definition outage : js_error := {|
  err_code := Some (-32603)%Z;
  err_data_code := None;
  err_reason := None;
  err_message := Some "Internal JSON-RPC error.";
  err_text := "Error: Internal JSON-RPC error."
|}.

Definition invalid_number : js_error := {|
  err_code := None;
  err_data_code := None;
  err_reason := None;
  err_message := Some "invalid FixedNumber string value";
  err_text := "TypeError: invalid FixedNumber string value"
|}.

Fixpoint all_zeros (s : string) : bool :=
  match s with
  | EmptyString => true
  | String a rest => Ascii.eqb a "0"%char && all_zeros rest
  end.

Fixpoint trim_zeros (s : string) : string :=
  match s with
  | EmptyString => EmptyString
  | String a rest =>
      if all_zeros rest then String a EmptyString
      else String a (trim_zeros rest)
  end.

Definition tail (s : string) : string :=
  match s with
  | EmptyString => EmptyString
  | String _ rest => rest
  end.

(** Decimal rendering of an amount of wei in ether: 18 fraction digits,
    trailing zeros dropped down to one. *)
Definition format_wei (wei : Z) : string :=
  let unit := (10 ^ 18)%Z in
  let n := Z.abs wei in
  (if (wei <? 0)%Z then "-" else "")
  +:+ pretty (n / unit)%Z +:+ "."
  +:+ trim_zeros (tail (pretty (unit + n mod unit)%Z)).

Definition receipt_success : Receipt := {| status := 1 |}.
Definition receipt_reverted : Receipt := {| status := 0 |}.

Definition tx_confirming : TxResponse :=
  {| hash := "0xabc"; wait := Ok (Some receipt_success) |}.
Definition tx_reverting : TxResponse :=
  {| hash := "0xdef"; wait := Ok (Some receipt_reverted) |}.

Definition vault : Contract := {|
  c_invest := fun _ => Ok tx_confirming;
  c_withdraw := Ok tx_confirming;
  c_balances := fun _ => Ok 1500000000000000000%Z;
  c_getBalance := fun _ => Ok 1500000000000000000%Z;
  c_removeAllListeners := fun _ => Ok tt
|}.

Definition reverting_vault : Contract := {|
  c_invest := fun _ => Ok tx_reverting;
  c_withdraw := Ok tx_reverting;
  c_balances := fun _ => Ok 1000000000000000000%Z;
  c_getBalance := fun _ => Ok 1000000000000000000%Z;
  c_removeAllListeners := fun _ => Ok tt
|}.

Definition rejecting_vault : Contract := {|
  c_invest := fun _ => Throw rejection;
  c_withdraw := Throw rejection;
  c_balances := fun _ => Throw outage;
  c_getBalance := fun _ => Throw outage;
  c_removeAllListeners := fun _ => Ok tt
|}.

Definition ethers : Ethers := {|
  parseEther := fun s =>
    if String.eqb s "0.5" then Ok 500000000000000000%Z
    else Throw invalid_number;
  formatEther := format_wei;
  newContract := fun _ => Ok vault
|}.

(** [Number(s) <= 0] on the strings the examples enter. *)
Definition nonpositive (s : string) : bool :=
  String.eqb s "0" || String.eqb s "-1".

Definition me : string := "0x00000000000000000000000000000000000000a1".
Definition other : string := "0x00000000000000000000000000000000000000b2".

Definition signer : Signer := {| getAddress := Ok me |}.

Definition wallet : Provider := {|
  send_eth_requestAccounts := Ok tt;
  getSigner := Ok signer;
  getNetwork := Ok 11155111%Z
|}.

Definition locked_wallet : Provider := {|
  send_eth_requestAccounts := Throw rejection;
  getSigner := Ok signer;
  getNetwork := Ok 1%Z
|}.

(** The dashboard connected to [v], with ["0.5"] typed into the amount
    field. *)
Definition connected (v : Contract) : App.state :=
  App.with_amount "0.5"
    (App.with_contract (Some v)
       (App.with_account (Some me)
          (App.with_provider (Some wallet) App.initial))).

Definition entry (n : nat) : ExitVaultUI.tx_entry := {|
  ExitVaultUI.e_hash := "0x" +:+ pretty n;
  ExitVaultUI.e_note := "Invest (sent)";
  ExitVaultUI.e_time := "11/2/2026, 10:00:00 AM"
|}.

(** A transaction that is accepted and then lost: waiting for it throws. *)
Definition tx_dropped : TxResponse :=
  {| hash := "0x123"; wait := Throw outage |}.

Definition sendTransaction (sg : Signer) (value : Z) : result TxResponse :=
  Ok tx_confirming.

Definition sendTransaction_dropped (sg : Signer) (value : Z)
  : result TxResponse :=
  Ok tx_dropped.

Definition withdraw_wei (c : Contract) (wei : Z) : result TxResponse :=
  Ok tx_reverting.

(** Lower case of the ASCII letters, enough for addresses. *)
Definition lower_ascii (a : ascii) : ascii :=
  let n := nat_of_ascii a in
  if (65 <=? n)%nat && (n <=? 90)%nat then ascii_of_nat (n + 32) else a.

Fixpoint toLowerCase (s : string) : string :=
  match s with
  | EmptyString => EmptyString
  | String a rest => String (lower_ascii a) (toLowerCase rest)
  end.

(** A vault whose submissions are accepted and then lost. *)
Definition dropping_vault : Contract := {|
  c_invest := fun _ => Ok tx_dropped;
  c_withdraw := Ok tx_dropped;
  c_balances := fun _ => Ok 1000000000000000000%Z;
  c_getBalance := fun _ => Ok 1000000000000000000%Z;
  c_removeAllListeners := fun _ => Throw outage
|}.

Definition unreachable_wallet : Provider := {|
  send_eth_requestAccounts := Ok tt;
  getSigner := Ok signer;
  getNetwork := Throw outage
|}.

(** The component of [ExitVault.jsx] connected to [v], with ["0.5"] typed
    into its input. *)
Definition ui_connected (v : Contract) : ExitVaultUI.state :=
  ExitVaultUI.with_inputEth "0.5"
    (ExitVaultUI.with_contract (Some v)
       (ExitVaultUI.with_account (Some me)
          (ExitVaultUI.with_signer (Some signer)
             (ExitVaultUI.with_provider (Some wallet) ExitVaultUI.initial)))).

End Mock.

(** ** Proof automation *)

Local Open Scope list_scope.

(** Unfolds an action down to the monad's state passing. *)
Ltac step_handler :=
  unfold App.invest, App.withdraw, try_finally, try_catch, bind, call, emit,
    eval, get, ret, App.setTxStatus, App.setTxHash, App.setLoading,
    App.setMessage, App.setAmount, modify.

(** Replaces the call of [fetchVaultBalance] in the goal by its result, as
    described by [frame], and closes the goal by cases on the account. *)
Ltac through_refresh frame s c :=
  match goal with
  | |- context [App.fetchVaultBalance ?e ?v ?ad ?st ?tr] =>
      let s' := fresh "s'" in
      let Hst := fresh "Hst" in
      let Ham := fresh "Ham" in
      destruct (frame e c ad st tr) as (s' & -> & Hst & _ & Ham & _);
      cbn in *; unfold refresh_of;
      (destruct (App.account s) as [?addr|]; [destruct (truthy_str addr)|]);
      cbn; by rewrite ?Hst, ?Ham
  end.

(** A list of writes that starts with none and is a path of the machine. *)
Ltac path_from_none :=
  eexists; split; [reflexivity|]; cbn; split_and!; by try constructor.

(** First-order goals over the cases of a submission. *)
Ltac crush :=
  repeat (intros;
          match goal with
          | H : _ \/ _ |- _ => destruct H
          | H : _ /\ _ |- _ => destruct H
          | H : exists _, _ |- _ => destruct H
          | H : False |- _ => destruct H
          end);
  simplify_eq; try congruence; eauto 8.

Ltac machine_cases :=
  split; [path_from_none|]; split; [done|];
  split_and!; rewrite ?elem_of_cons, ?elem_of_nil;
  try (split; crush); crush.

(** * Properties *)

(** ** The activity log of [ExitVault.jsx] *)

Lemma take_app_take {A} (n : nat) (l k : list A) :
  take n (l ++ take n k) = take n (l ++ k).
Proof.
  rewrite !take_app, take_take. do 2 f_equal. lia.
Qed.

(** A run of [addTx] calls only touches the log: it ends with the calls
    prepended newest first and cut at 20. *)
Lemma addTx_all_run calls (s : ExitVaultUI.state) t :
  ExitVaultUI.addTx_all calls s t =
  (Ok tt,
   ExitVaultUI.with_txs
     (fun log =>
        match calls with
        | [] => log
        | _ => take 20 (reverse calls ++ log)
        end) s,
   t).
Proof.
  revert s. induction calls as [|e rest IH]; intros s.
  - by destruct s.
  - cbn [ExitVaultUI.addTx_all].
    unfold bind, ExitVaultUI.addTx, ExitVaultUI.setTxs, modify.
    rewrite IH. destruct s; unfold ExitVaultUI.with_txs; cbn -[take reverse].
    do 3 f_equal. destruct e as [h n tm]; cbn -[take reverse].
    destruct rest as [|e' rest']; [reflexivity|].
    rewrite take_app_take, (reverse_cons (e' :: rest')).
    by rewrite <- app_assoc.
Qed.

(** C3. Starting from a log within the cap (the initial log is empty), any
    sequence of [addTx] calls leaves a log of at most 20 entries, which is
    the 20 first entries of "the calls, newest first, followed by the
    earlier log": what is cut off is the oldest end. *)
Theorem activity_log_capped (calls : list ExitVaultUI.tx_entry)
  (s : ExitVaultUI.state) (t : list event) :
  length (ExitVaultUI.txs s) <= 20 ->
  let r := ExitVaultUI.addTx_all calls s t in
  let log := ExitVaultUI.txs (final r) in
  outcome r = Ok tt /\
  length log <= 20 /\
  log = take 20 (reverse calls ++ ExitVaultUI.txs s) /\
  reverse calls ++ ExitVaultUI.txs s
  = log ++ drop 20 (reverse calls ++ ExitVaultUI.txs s).
Proof.
  intros Hcap r log. subst log r. rewrite addTx_all_run. cbn.
  assert (Hlog :
    match calls with
    | [] => ExitVaultUI.txs s
    | _ => take 20 (reverse calls ++ ExitVaultUI.txs s)
    end = take 20 (reverse calls ++ ExitVaultUI.txs s)).
  { destruct calls; [|done]. cbn. by rewrite take_ge. }
  rewrite Hlog. split_and!; [done| |done|by rewrite take_drop].
  rewrite length_take. lia.
Qed.

(** Twenty-two entries appended to the empty log: the log holds the last
    twenty, the newest on top, and the first two are gone. *)
Lemma activity_log_capped_witness :
  let calls := Mock.entry <$> seq 1 22 in
  let log :=
    ExitVaultUI.txs (final (ExitVaultUI.addTx_all calls ExitVaultUI.initial [])) in
  length log <= 20 /\
  log = Mock.entry <$> reverse (seq 3 20) /\
  drop 20 (reverse calls) = [Mock.entry 2; Mock.entry 1].
Proof.
  intros calls log.
  destruct (activity_log_capped calls ExitVaultUI.initial []) as (_ & Hlen & Hlog & _).
  { cbn. lia. }
  split; [exact Hlen|]. split; [|reflexivity].
  subst log. rewrite Hlog. reflexivity.
Defined.

(** ** Explorer links *)

(** C7. The explorer base of a chain is its table entry for the chains 1,
    5 and 11155111 and the mainnet root for every other chain identifier;
    the link of the page is the explorer base, then [/tx/], then the
    transaction hash. *)
Theorem explorer_base_resolution (chainId : Z) (s : App.state) (h : string) :
  App.explorerBaseForChain 1 = "https://etherscan.io" /\
  App.explorerBaseForChain 5 = "https://goerli.etherscan.io" /\
  App.explorerBaseForChain 11155111 = "https://sepolia.etherscan.io" /\
  (forall url, App.EXPLORER_BY_CHAIN !! chainId = Some url ->
     App.explorerBaseForChain chainId = url) /\
  (chainId <> 1%Z -> chainId <> 5%Z -> chainId <> 11155111%Z ->
     App.EXPLORER_BY_CHAIN !! chainId = None /\
     App.explorerBaseForChain chainId = "https://etherscan.io" /\
     App.explorerBaseForChain chainId = App.explorerBaseForChain 1) /\
  (truthy_ostr (App.account s) = true -> App.txHash s = Some h ->
   truthy_str h = true ->
     App.explorer_link s = Some (App.explorerBase s +:+ "/tx/" +:+ h)).
Proof.
  split_and!; try reflexivity.
  - intros url Hurl. unfold App.explorerBaseForChain. by rewrite Hurl.
  - intros H1 H5 H11.
    assert (Hnone : App.EXPLORER_BY_CHAIN !! chainId = None).
    { unfold App.EXPLORER_BY_CHAIN.
      rewrite !lookup_insert_ne by done. by apply lookup_singleton_ne. }
    unfold App.explorerBaseForChain at 1 2. by rewrite Hnone.
  - intros Hacc Hh Htr. unfold App.explorer_link. by rewrite Hacc, Hh, Htr.
Qed.

(** Chain 137 is not in the table; the page after a confirmed investment on
    the mock vault links to the mainnet explorer. *)
Lemma explorer_base_resolution_witness :
  let s :=
    final (run Mock.ethers Mock.nonpositive Invest (Mock.connected Mock.vault) []) in
  App.explorerBaseForChain 137 = "https://etherscan.io" /\
  App.explorerBaseForChain 5 = "https://goerli.etherscan.io" /\
  App.explorer_link s = Some "https://etherscan.io/tx/0xabc".
Proof.
  intros s.
  destruct (explorer_base_resolution 137 s "0xabc")
    as (_ & _ & _ & _ & Hother & Hlink).
  destruct (explorer_base_resolution 5 s "0xabc") as (_ & _ & _ & Hentry & _).
  split; [apply Hother; lia|]. split; [by apply Hentry|].
  by rewrite Hlink.
Defined.

(** ** Balance refresh *)

Lemma fetchVaultBalance_run ethers v a (s : App.state) t :
  truthy_str a = true ->
  App.fetchVaultBalance ethers (Some v) (Some a) s t =
  (Ok tt,
   match c_balances v a with
   | Ok raw =>
       App.with_loading false
         (App.with_message "Balance updated"
            (App.with_balance (formatEther ethers raw)
               (App.with_loading true s)))
   | Throw err =>
       App.with_loading false
         (App.with_message
            ("Failed to fetch balance: "
             +:+ nullish_else (err_message err) (err_text err))
            (App.with_loading true s))
   end,
   t ++ [CallBalances v a]).
Proof.
  intros Ha. unfold App.fetchVaultBalance, try_finally, try_catch, bind, call,
    emit, eval, App.setLoading, App.setBalance, App.setMessage, modify.
  rewrite Ha. cbn. by destruct (c_balances v a).
Qed.

(** With a falsy handle or address nothing is read. *)
Lemma fetchVaultBalance_skip ethers vault addr (s : App.state) t :
  truthy_obj vault && truthy_ostr addr = false ->
  App.fetchVaultBalance ethers vault addr s t =
  (Ok tt, App.with_loading false s, t).
Proof.
  intros Hskip. unfold App.fetchVaultBalance, try_finally, try_catch, ret,
    App.setLoading, modify.
  destruct vault as [v|], addr as [a|]; cbn in *; try done.
  by rewrite Hskip.
Qed.

Lemma fetchBalance_run ethers c a (s : ExitVaultUI.state) t :
  truthy_str a = true ->
  ExitVaultUI.fetchBalance ethers (Some c) (Some a) s t =
  (Ok tt,
   match c_getBalance c a with
   | Ok bal => ExitVaultUI.with_balanceEth (formatEther ethers bal) s
   | Throw err =>
       ExitVaultUI.with_status
         ("Failed to fetch balance: "
          +:+ or_else (err_message err) (err_text err)) s
   end,
   t ++ [CallGetBalance c a]).
Proof.
  intros Ha. unfold ExitVaultUI.fetchBalance, try_catch, bind, call, emit,
    eval, ExitVaultUI.setBalanceEth, ExitVaultUI.setStatus, modify.
  rewrite Ha. cbn. by destruct (c_getBalance c a).
Qed.

(** C5. A balance refresh of either component, on a handle [v] and a
    non-empty address [a], reads the balance accessor once and never
    throws: when the accessor throws, the displayed balance is the one
    from before and the message (resp. status line) reports the failure;
    when it returns [raw], the displayed balance is [formatEther raw]. *)
Theorem balance_refresh_frame ethers (v : Contract) (a : string)
  (s : App.state) (u : ExitVaultUI.state) (t : list event) :
  truthy_str a = true ->
  let r := App.fetchVaultBalance ethers (Some v) (Some a) s t in
  let q := ExitVaultUI.fetchBalance ethers (Some v) (Some a) u t in
  (outcome r = Ok tt /\
   trace r = t ++ [CallBalances v a] /\
   match c_balances v a with
   | Throw err =>
       App.balance (final r) = App.balance s /\
       App.message (final r)
       = "Failed to fetch balance: "
         +:+ nullish_else (err_message err) (err_text err)
   | Ok raw => App.balance (final r) = formatEther ethers raw
   end) /\
  (outcome q = Ok tt /\
   trace q = t ++ [CallGetBalance v a] /\
   match c_getBalance v a with
   | Throw err =>
       ExitVaultUI.balanceEth (final q) = ExitVaultUI.balanceEth u /\
       ExitVaultUI.status (final q)
       = "Failed to fetch balance: "
         +:+ or_else (err_message err) (err_text err)
   | Ok bal => ExitVaultUI.balanceEth (final q) = formatEther ethers bal
   end).
Proof.
  intros Ha r q. subst r q.
  rewrite fetchVaultBalance_run, fetchBalance_run by done.
  split; (split_and!; [done|done|]).
  - by destruct (c_balances v a).
  - by destruct (c_getBalance v a).
Qed.

(** On the vault whose accessors throw, the balances on display stay ["0"]
    and ["0.0"] and the failure is reported. *)
Lemma balance_refresh_frame_witness :
  let r :=
    App.fetchVaultBalance Mock.ethers (Some Mock.rejecting_vault)
      (Some Mock.me) App.initial [] in
  let q :=
    ExitVaultUI.fetchBalance Mock.ethers (Some Mock.rejecting_vault)
      (Some Mock.me) ExitVaultUI.initial [] in
  (outcome r = Ok tt /\ App.balance (final r) = "0" /\
   App.message (final r) = "Failed to fetch balance: Internal JSON-RPC error.") /\
  (outcome q = Ok tt /\ ExitVaultUI.balanceEth (final q) = "0.0" /\
   ExitVaultUI.status (final q)
   = "Failed to fetch balance: Internal JSON-RPC error.").
Proof.
  intros r q.
  destruct (balance_refresh_frame Mock.ethers Mock.rejecting_vault Mock.me
              App.initial ExitVaultUI.initial [] eq_refl)
    as ((Hr & _ & Hbal & Hmsg) & (Hq & _ & Hbal' & Hst)).
  split; split_and!; assumption.
Defined.


(** ** The two actions *)

(** Every call of [fetchVaultBalance] on a handle returns normally, adds
    the trace of one refresh and touches only balance, message and the
    loading flag. *)
Lemma fetch_cases ethers c addr (s : App.state) t :
  exists s',
    App.fetchVaultBalance ethers (Some c) addr s t
    = (Ok tt, s', t ++ refresh_of c addr) /\
    App.txStatus s' = App.txStatus s /\
    App.txHash s' = App.txHash s /\
    App.amount s' = App.amount s /\
    App.account s' = App.account s /\
    App.contract s' = App.contract s /\
    App.provider s' = App.provider s /\
    App.explorerBase s' = App.explorerBase s /\
    App.loading s' = false.
Proof.
  destruct addr as [a|]; [destruct (truthy_str a) eqn:Ha|].
  - rewrite fetchVaultBalance_run by done. eexists; split.
    { unfold refresh_of. by rewrite Ha. }
    by destruct (c_balances c a).
  - rewrite fetchVaultBalance_skip by (cbn; by rewrite Ha).
    eexists; split; [unfold refresh_of; by rewrite Ha, app_nil_r|done].
  - rewrite fetchVaultBalance_skip by done.
    eexists; split; [by rewrite app_nil_r|done].
Qed.

(** An action whose guard fails only sets the message. *)
Lemma run_guard_fails ethers nonpositive a (s : App.state) t :
  guards_pass nonpositive a s = false ->
  run ethers nonpositive a s t
  = (Ok tt,
     App.with_message
       (if truthy_obj (App.contract s) then "Enter a valid amount in ETH"
        else "Connect wallet first") s,
     t).
Proof.
  unfold guards_pass. intros Hg.
  destruct a; cbn [run amount_ok] in *; step_handler;
    destruct (App.contract s) as [c|]; cbn in *; try done.
  by destruct (truthy_str (App.amount s)), (nonpositive (App.amount s)).
Qed.

(** What an action that passes its guards does, by the outcome of its
    submission and of the wait for the receipt. *)
Lemma run_summary ethers nonpositive a (s : App.state) c :
  App.contract s = Some c ->
  amount_ok nonpositive a s = true ->
  let r := run ethers nonpositive a s [] in
  outcome r = Ok tt /\
  head (trace r) = Some (WroteTxStatus None) /\
  match submission ethers a s c with
  | Throw e =>
      status_writes (trace r) = [None; Some failed] /\
      balance_reads (trace r) = [] /\
      App.txStatus (final r) = Some failed /\
      App.message (final r)
      = (if App.user_rejected e then "Transaction rejected by user."
         else generic_failure a e) /\
      App.amount (final r) = App.amount s /\
      App.balance (final r) = App.balance s
  | Ok tx =>
      match wait tx with
      | Throw e =>
          status_writes (trace r) = [None; Some pending; Some failed] /\
          balance_reads (trace r) = [] /\
          App.txStatus (final r) = Some failed /\
          App.message (final r)
          = (if App.user_rejected e then "Transaction rejected by user."
             else generic_failure a e) /\
          App.amount (final r) = App.amount s /\
          App.balance (final r) = App.balance s
      | Ok receipt =>
          let verdict := if App.receipt_ok receipt then confirmed else failed in
          status_writes (trace r) = [None; Some pending; Some verdict] /\
          balance_reads (trace r)
          = balance_reads (refresh_of c (App.account s)) /\
          App.txStatus (final r) = Some verdict /\
          App.amount (final r)
          = match a with Invest => "" | Withdraw => App.amount s end
      end
  end.
Proof.
  intros Hc Hamt r. subst r.
  destruct a; cbn [run amount_ok submission generic_failure] in *.
  - apply andb_true_iff in Hamt as [Hne Hpos]. apply negb_true_iff in Hpos.
    step_handler. rewrite Hc, Hne, Hpos. cbn [negb orb].
    destruct (parseEther ethers (App.amount s)) as [value|e]; cbn;
      [|by destruct (App.user_rejected e)].
    destruct (c_invest c value) as [tx|e]; cbn;
      [|by destruct (App.user_rejected e)].
    destruct (wait tx) as [receipt|e]; cbn;
      [|by destruct (App.user_rejected e)].
    destruct (App.receipt_ok receipt); cbn; through_refresh fetch_cases s c.
  - step_handler. rewrite Hc. cbn.
    destruct (c_withdraw c) as [tx|e]; cbn;
      [|by destruct (App.user_rejected e)].
    destruct (wait tx) as [receipt|e]; cbn;
      [|by destruct (App.user_rejected e)].
    destruct (App.receipt_ok receipt); cbn; through_refresh fetch_cases s c.
Qed.

Lemma receipt_ok_true receipt :
  App.receipt_ok receipt = true <->
  exists rc, receipt = Some rc /\ status rc = 1%Z.
Proof.
  unfold App.receipt_ok. split.
  - destruct receipt as [rc|]; [|done]. intros H%Z.eqb_eq. eauto.
  - intros (rc & -> & ->). reflexivity.
Qed.

(** C1. An action on a connected session whose amount guard passes resets
    the transaction status to none before anything else, and from there
    the writes to the status follow the machine: pending is written
    exactly when the submission is accepted, confirmed exactly when the
    receipt has status 1, and failed is the last write when the
    submission throws or the receipt has another status. *)
Theorem tx_status_state_machine ethers nonpositive a (s : App.state) c :
  App.contract s = Some c ->
  amount_ok nonpositive a s = true ->
  let r := run ethers nonpositive a s [] in
  let w := status_writes (trace r) in
  let sub := submission ethers a s c in
  let success :=
    exists tx rc, sub = Ok tx /\ wait tx = Ok (Some rc) /\ status rc = 1%Z in
  outcome r = Ok tt /\
  head (trace r) = Some (WroteTxStatus None) /\
  (exists rest, w = None :: rest /\ status_path None rest) /\
  last w = Some (App.txStatus (final r)) /\
  (Some pending ∈ w <-> exists tx, sub = Ok tx) /\
  (Some confirmed ∈ w <-> success) /\
  (App.txStatus (final r) = Some confirmed <-> success) /\
  (forall e, sub = Throw e ->
     w = [None; Some failed] /\ App.txStatus (final r) = Some failed) /\
  (forall tx rc, sub = Ok tx -> wait tx = Ok (Some rc) -> status rc <> 1%Z ->
     w = [None; Some pending; Some failed] /\
     App.txStatus (final r) = Some failed).
Proof.
  intros Hc Hamt r w sub success. subst w sub success.
  destruct (run_summary ethers nonpositive a s c Hc Hamt) as (Hok & Hhd & Hsum).
  fold r in Hok, Hhd, Hsum.
  split; [done|]. split; [done|].
  destruct (submission ethers a s c) as [tx|e];
    [destruct (wait tx) as [receipt|e] eqn:Hwait|].
  - cbn zeta in Hsum. destruct Hsum as (-> & _ & -> & _).
    pose proof (receipt_ok_true receipt) as Hrc.
    destruct (App.receipt_ok receipt).
    + destruct (proj1 Hrc eq_refl) as (rc & -> & Hone). machine_cases.
    + assert (Hno : forall rc, receipt = Some rc -> status rc <> 1%Z).
      { intros rc -> Hone.
        discriminate (proj2 Hrc (ex_intro _ rc (conj eq_refl Hone))). }
      clear Hrc. machine_cases.
      all: match goal with
           | H : wait _ = Ok (Some _) |- _ => rewrite Hwait in H; simplify_eq
           end; by destruct (Hno _ eq_refl).
  - destruct Hsum as (-> & _ & -> & _). machine_cases.
  - destruct Hsum as (-> & _ & -> & _). machine_cases.
Qed.


(** A confirmed investment on the mock vault and a submission the wallet
    rejects. *)
Lemma tx_status_state_machine_witness :
  let r := run Mock.ethers Mock.nonpositive Invest (Mock.connected Mock.vault) [] in
  let q :=
    run Mock.ethers Mock.nonpositive Withdraw
      (Mock.connected Mock.rejecting_vault) [] in
  (trace r
   = [WroteTxStatus None;
      CallInvest Mock.vault 500000000000000000;
      WroteTxStatus (Some pending);
      CallWait Mock.tx_confirming;
      WroteTxStatus (Some confirmed);
      CallBalances Mock.vault Mock.me] /\
   App.txStatus (final r) = Some confirmed) /\
  (status_writes (trace q) = [None; Some failed] /\
   App.txStatus (final q) = Some failed).
Proof.
  intros r q. split.
  - destruct (tx_status_state_machine Mock.ethers Mock.nonpositive Invest
                (Mock.connected Mock.vault) Mock.vault eq_refl eq_refl)
      as (_ & _ & _ & _ & _ & _ & Hconfirmed & _).
    split; [reflexivity|]. apply Hconfirmed.
    exists Mock.tx_confirming, Mock.receipt_success. by split_and!.
  - destruct (tx_status_state_machine Mock.ethers Mock.nonpositive Withdraw
                (Mock.connected Mock.rejecting_vault) Mock.rejecting_vault
                eq_refl eq_refl)
      as (_ & _ & _ & _ & _ & _ & _ & Hthrown & _).
    exact (Hthrown Mock.rejection eq_refl).
Defined.

(** C2, as the code has it. An action always returns normally. When its
    guards pass (a contract handle is present and, for invest, the amount
    is non-empty and not [<= 0]) its first write to the transaction status
    is the reset to none and it ends with the status confirmed or failed,
    whatever the status was before; when a guard fails, the status is not
    written and keeps its earlier value. *)
Theorem status_after_action ethers nonpositive a (s : App.state) :
  let r := run ethers nonpositive a s [] in
  outcome r = Ok tt /\
  if guards_pass nonpositive a s then
    head (status_writes (trace r)) = Some None /\
    (App.txStatus (final r) = Some confirmed \/
     App.txStatus (final r) = Some failed)
  else
    status_writes (trace r) = [] /\
    App.txStatus (final r) = App.txStatus s.
Proof.
  intros r. subst r.
  destruct (guards_pass nonpositive a s) eqn:Hg.
  - unfold guards_pass in Hg. apply andb_true_iff in Hg as [Hc Hamt].
    destruct (App.contract s) as [c|] eqn:Hcs; [|done].
    destruct (run_summary ethers nonpositive a s c Hcs Hamt) as (Hok & _ & Hsum).
    split; [done|].
    destruct (submission ethers a s c) as [tx|e];
      [destruct (wait tx) as [receipt|e]|].
    + cbn zeta in Hsum. destruct Hsum as (-> & _ & -> & _).
      split; [done|]. destruct (App.receipt_ok receipt); auto.
    + destruct Hsum as (-> & _ & -> & _). auto.
    + destruct Hsum as (-> & _ & -> & _). auto.
  - by rewrite run_guard_fails.
Qed.

(** C2 does not hold as stated for an action whose guard fails: on the
    page as first loaded, invest returns with the status still none,
    outside {pending, confirmed, failed}; and after a confirmed investment
    has cleared the amount field, a second click on Invest is turned away
    by the amount guard and leaves the status of the first, confirmed, in
    place without writing it. *)
Lemma stale_status_counterexample :
  let r0 := run Mock.ethers Mock.nonpositive Invest App.initial [] in
  let s1 :=
    final (run Mock.ethers Mock.nonpositive Invest (Mock.connected Mock.vault) []) in
  let r1 := run Mock.ethers Mock.nonpositive Invest s1 [] in
  (outcome r0 = Ok tt /\
   ~ (App.txStatus (final r0) = Some pending \/
      App.txStatus (final r0) = Some confirmed \/
      App.txStatus (final r0) = Some failed)) /\
  (outcome r1 = Ok tt /\
   App.message (final r1) = "Enter a valid amount in ETH" /\
   status_writes (trace r1) = [] /\
   App.txStatus s1 = Some confirmed /\
   App.txStatus (final r1) = Some confirmed).
Proof.
  cbn zeta. split.
  - split; [reflexivity|]. cbn. intros [H|[H|H]]; discriminate H.
  - by split_and!.
Qed.

(** C4. When the submission of an action throws an error whose [code] (or
    whose [data.code]) is 4001, the action returns normally with the
    message "Transaction rejected by user.", which is not the generic
    failure message, with the status failed, and without reading the
    balance: the displayed balance is the one from before. *)
Theorem user_rejection_special_cased ethers nonpositive a (s : App.state) c e :
  App.contract s = Some c ->
  amount_ok nonpositive a s = true ->
  submission ethers a s c = Throw e ->
  err_code e = Some 4001%Z \/ err_data_code e = Some 4001%Z ->
  let r := run ethers nonpositive a s [] in
  outcome r = Ok tt /\
  App.message (final r) = "Transaction rejected by user." /\
  App.message (final r) <> generic_failure a e /\
  App.txStatus (final r) = Some failed /\
  balance_reads (trace r) = [] /\
  App.balance (final r) = App.balance s.
Proof.
  intros Hc Hamt Hsub Hcode r. subst r.
  destruct (run_summary ethers nonpositive a s c Hc Hamt) as (Hok & _ & Hsum).
  rewrite Hsub in Hsum.
  destruct Hsum as (_ & Hreads & Hst & Hmsg & _ & Hbal).
  assert (Hrej : App.user_rejected e = true).
  { unfold App.user_rejected. apply orb_true_iff.
    destruct Hcode as [H|H]; [left|right]; by apply bool_decide_eq_true. }
  rewrite Hrej in Hmsg. split_and!; try done.
  rewrite Hmsg. by destruct a.
Qed.

Lemma user_rejection_special_cased_witness :
  let r :=
    run Mock.ethers Mock.nonpositive Withdraw
      (Mock.connected Mock.rejecting_vault) [] in
  let q :=
    run Mock.ethers Mock.nonpositive Invest
      (Mock.connected Mock.rejecting_vault) [] in
  (App.message (final r) = "Transaction rejected by user." /\
   App.txStatus (final r) = Some failed /\
   balance_reads (trace r) = []) /\
  (App.message (final q) = "Transaction rejected by user." /\
   App.txStatus (final q) = Some failed /\
   balance_reads (trace q) = []).
Proof.
  intros r q. split.
  - destruct (user_rejection_special_cased Mock.ethers Mock.nonpositive
                Withdraw (Mock.connected Mock.rejecting_vault)
                Mock.rejecting_vault Mock.rejection eq_refl eq_refl eq_refl
                (or_introl eq_refl))
      as (_ & Hmsg & _ & Hst & Hreads & _).
    by split_and!.
  - destruct (user_rejection_special_cased Mock.ethers Mock.nonpositive
                Invest (Mock.connected Mock.rejecting_vault)
                Mock.rejecting_vault Mock.rejection eq_refl eq_refl eq_refl
                (or_introl eq_refl))
      as (_ & Hmsg & _ & Hst & Hreads & _).
    by split_and!.
Defined.


(** C10, as the code has it. On a session with a contract handle [c] and
    an account [addr], an action whose submission is accepted and whose
    receipt arrives reads the balance of [addr] on [c] exactly once,
    whatever the receipt says; invest then empties the amount field, also
    when the receipt reports a failure, and withdraw leaves it alone.
    When the submission or the wait throws, the balance is not read and
    the amount field keeps its content. *)
Theorem refresh_and_amount_after_receipt ethers nonpositive a
  (s : App.state) c addr :
  App.contract s = Some c ->
  App.account s = Some addr ->
  truthy_str addr = true ->
  amount_ok nonpositive a s = true ->
  let r := run ethers nonpositive a s [] in
  match submission ethers a s c with
  | Ok tx =>
      match wait tx with
      | Ok receipt =>
          balance_reads (trace r) = [(c, addr)] /\
          App.amount (final r)
          = match a with Invest => "" | Withdraw => App.amount s end
      | Throw _ =>
          balance_reads (trace r) = [] /\
          App.amount (final r) = App.amount s
      end
  | Throw _ =>
      balance_reads (trace r) = [] /\
      App.amount (final r) = App.amount s
  end.
Proof.
  intros Hc Hacc Haddr Hamt r. subst r.
  destruct (run_summary ethers nonpositive a s c Hc Hamt) as (_ & _ & Hsum).
  destruct (submission ethers a s c) as [tx|e];
    [destruct (wait tx) as [receipt|e]|].
  - cbn zeta in Hsum. destruct Hsum as (_ & -> & _ & ->).
    split; [|done]. unfold refresh_of. by rewrite Hacc, Haddr.
  - by destruct Hsum as (_ & -> & _ & _ & -> & _).
  - by destruct Hsum as (_ & -> & _ & _ & -> & _).
Qed.

(** The receipt of the reverting vault has status 0: the balance is read
    once all the same, and the amount field is emptied. *)
Lemma refresh_and_amount_after_receipt_witness :
  let r :=
    run Mock.ethers Mock.nonpositive Invest
      (Mock.connected Mock.reverting_vault) [] in
  balance_reads (trace r) = [(Mock.reverting_vault, Mock.me)] /\
  App.amount (final r) = "".
Proof.
  exact (refresh_and_amount_after_receipt Mock.ethers Mock.nonpositive Invest
           (Mock.connected Mock.reverting_vault) Mock.reverting_vault Mock.me
           eq_refl eq_refl eq_refl eq_refl).
Defined.

(** C10 does not hold as stated: an investment whose receipt reports a
    failure ends with the status failed and with the amount field
    emptied, not preserved. *)
Lemma amount_cleared_on_failed_receipt_counterexample :
  let s := Mock.connected Mock.reverting_vault in
  let r := run Mock.ethers Mock.nonpositive Invest s [] in
  App.txStatus (final r) = Some failed /\
  App.amount s = "0.5" /\
  ~ App.amount (final r) = App.amount s.
Proof.
  cbn zeta. split_and!; [reflexivity|reflexivity|]. cbn. discriminate.
Qed.

(** ** Account changes *)

(** C6, as the code has it. An accounts-changed notification with an
    empty (or missing) list sets the account and the contract handle to
    null and the message to "Disconnected"; it does nothing else: the
    provider handle, the explorer base and the other cells keep their
    values, and nothing is called.  (The dashboard stores no signer.) *)
Theorem empty_accounts_disconnects ethers (s : App.state) (t : list event) :
  let cleared :=
    App.with_message "Disconnected"
      (App.with_contract None (App.with_account None s)) in
  App.onAccountsChanged ethers (Some []) s t = (Ok tt, cleared, t) /\
  App.onAccountsChanged ethers None s t = (Ok tt, cleared, t) /\
  App.account cleared = None /\
  App.contract cleared = None /\
  App.message cleared = "Disconnected" /\
  App.provider cleared = App.provider s /\
  App.explorerBase cleared = App.explorerBase s.
Proof. by split_and!. Qed.

(** C6 does not hold as stated: of the session's handles, the provider
    handle stays in place after an empty accounts list. *)
Lemma provider_survives_disconnect_counterexample :
  let s := Mock.connected Mock.vault in
  let r := App.onAccountsChanged Mock.ethers (Some []) s [] in
  App.provider s = Some Mock.wallet /\
  ~ (App.account (final r) = None /\
     App.provider (final r) = None /\
     App.contract (final r) = None).
Proof.
  cbn zeta. split; [reflexivity|]. cbn. intros (_ & H & _). discriminate H.
Qed.

(** C9. An accounts-changed notification with a non-empty list makes its
    first address the current account and keeps the contract handle; when
    a handle [c] is present (and the address is not the empty string) it
    reads the balance of that address on [c], once, and displays it. *)
Theorem accounts_changed_adopts_first ethers (s : App.state)
  (first : string) (others : list string) :
  let r := App.onAccountsChanged ethers (Some (first :: others)) s [] in
  outcome r = Ok tt /\
  App.account (final r) = Some first /\
  App.contract (final r) = App.contract s /\
  forall c, App.contract s = Some c -> truthy_str first = true ->
    trace r = [CallBalances c first] /\
    match c_balances c first with
    | Ok raw => App.balance (final r) = formatEther ethers raw
    | Throw err =>
        App.balance (final r) = App.balance s /\
        App.message (final r)
        = "Failed to fetch balance: "
          +:+ nullish_else (err_message err) (err_text err)
    end.
Proof.
  intros r. subst r.
  unfold App.onAccountsChanged, detached, try_catch, bind, get, ret,
    App.setAccount, App.setMessage, modify.
  destruct (App.contract s) as [c|] eqn:Hc; [|by split_and!].
  match goal with
  | |- context [App.fetchVaultBalance ?e ?v ?ad ?st ?tr] =>
      destruct (fetch_cases e c ad st tr)
        as (s' & Hrun & _ & _ & _ & Hacc & Hcon & _)
  end.
  rewrite Hrun. cbn in *. split_and!; try done.
  { by rewrite Hcon. }
  intros c' [= <-] Hfirst.
  revert Hrun. rewrite fetchVaultBalance_run by done. intros [= <-].
  rewrite Hfirst. split; [done|]. by destruct (c_balances c first).
Qed.

Lemma accounts_changed_adopts_first_witness :
  let s := Mock.connected Mock.vault in
  let r := App.onAccountsChanged Mock.ethers (Some [Mock.other; Mock.me]) s [] in
  App.account (final r) = Some Mock.other /\
  trace r = [CallBalances Mock.vault Mock.other] /\
  App.balance (final r) = "1.5".
Proof.
  intros s r.
  destruct (accounts_changed_adopts_first Mock.ethers s Mock.other [Mock.me])
    as (_ & Hacc & _ & Href).
  destruct (Href Mock.vault eq_refl eq_refl) as (Htr & Hbal).
  by split_and!.
Defined.


(** ** The wallet connectors *)

Lemma fetchBalance_returns ethers c addr (s : ExitVaultUI.state) t :
  exists s' t', ExitVaultUI.fetchBalance ethers c addr s t = (Ok tt, s', t').
Proof.
  unfold ExitVaultUI.fetchBalance, try_catch, bind, call, emit, eval, ret,
    ExitVaultUI.setBalanceEth, ExitVaultUI.setStatus, modify.
  destruct c as [c|], addr as [a|]; cbn; eauto.
  destruct (truthy_str a); cbn; eauto.
  destruct (c_getBalance c a); eauto.
Qed.

Lemma listenEvents_returns c (s : ExitVaultUI.state) t :
  exists t', ExitVaultUI.listenEvents c s t = (Ok tt, s, t').
Proof.
  unfold ExitVaultUI.listenEvents, try_catch, bind, call, emit, eval, ret.
  destruct c as [c|]; cbn; eauto.
  destruct (c_removeAllListeners c "Invest") as [[]|]; cbn; eauto.
  destruct (c_removeAllListeners c "Withdraw") as [[]|]; cbn; eauto.
Qed.

(** The connector of [ConnectWallet.jsx], by the outcome of the handshake:
    a failure is alerted; otherwise the callback runs, and what it throws
    is alerted. *)
Lemma connectWallet_run {St} ethers prov
  (onConnected : option (connection -> M St unit)) (s : St) t :
  let report e :=
    Alert ("Failed to connect wallet: "
           +:+ nullish_else (err_message e) (err_text e)) in
  let r := ConnectWallet.connectWallet ethers (Some prov) onConnected s t in
  match handshake ethers prov with
  | Throw e =>
      outcome r = Ok tt /\ final r = s /\ last (trace r) = Some (report e)
  | Ok conn =>
      match onConnected with
      | None => r = (Ok tt, s, t ++ handshake_calls)
      | Some f =>
          match f conn s (t ++ handshake_calls) with
          | (Ok _, s', t') => r = (Ok tt, s', t')
          | (Throw e, s', t') => r = (Ok tt, s', t' ++ [report e])
          end
      end
  end.
Proof.
  cbn zeta. unfold ConnectWallet.connectWallet, handshake, handshake_calls,
    try_catch, bind, call, emit, eval, ret.
  destruct (send_eth_requestAccounts prov) as [[]|e]; cbn;
    [|by rewrite last_snoc].
  destruct (getSigner prov) as [sg|e]; cbn; [|by rewrite last_snoc].
  destruct (getAddress sg) as [addr|e]; cbn; [|by rewrite last_snoc].
  destruct (newContract ethers sg) as [vault|e]; cbn; [|by rewrite last_snoc].
  rewrite <- !app_assoc. cbn.
  destruct onConnected as [f|]; [|done].
  by destruct (f _ s _) as [[[[]|e] s'] t'].
Qed.

Lemma connectWallet_ui_run ethers prov (u : ExitVaultUI.state) t :
  let q := ExitVaultUI.connectWallet ethers (Some prov) u t in
  outcome q = Ok tt /\
  match handshake ethers prov with
  | Throw e =>
      ExitVaultUI.status (final q)
      = "Failed to connect wallet: "
        +:+ or_else (err_message e) (err_text e) /\
      ExitVaultUI.contract (final q) = ExitVaultUI.contract u
  | Ok conn => True
  end.
Proof.
  cbn zeta. unfold ExitVaultUI.connectWallet, handshake, detached, try_catch,
    call, bind, emit, eval, ret, ExitVaultUI.setProvider,
    ExitVaultUI.setSigner, ExitVaultUI.setAccount, ExitVaultUI.setContract,
    ExitVaultUI.setStatus, modify.
  destruct (send_eth_requestAccounts prov) as [[]|e]; [|done].
  destruct (getSigner prov) as [sg|e]; [|done].
  destruct (getAddress sg) as [addr|e]; [|done].
  destruct (newContract ethers sg) as [vault|e]; [|done].
  match goal with
  | |- context [ExitVaultUI.fetchBalance ?e ?c ?ad ?st ?tr] =>
      destruct (fetchBalance_returns e c ad st tr) as (s' & t' & ->)
  end.
  by destruct (listenEvents_returns (Some vault) s' t') as (t'' & ->).
Qed.

(** C8. Without an injected wallet either connector reports the error and
    does nothing else: the connector of [ConnectWallet.jsx] alerts and
    leaves the state alone whatever its callback is, the one of
    [ExitVault.jsx] sets its status line and calls nothing.  With any
    wallet and any callback, no connector throws.  When a step of the
    handshake throws [e], the failure is alerted (resp. put on the status
    line) with the error's message; and what the callback itself throws
    is alerted the same way. *)
Theorem wallet_connector_contained {St : Type} ethers
  (wallet : option Provider)
  (onConnected : option (connection -> M St unit))
  (s : St) (u : ExitVaultUI.state) (t : list event) :
  let report e :=
    Alert ("Failed to connect wallet: "
           +:+ nullish_else (err_message e) (err_text e)) in
  (ConnectWallet.connectWallet ethers None onConnected s t
   = (Ok tt, s, t ++ [Alert "MetaMask not detected"]) /\
   ExitVaultUI.connectWallet ethers None u t
   = (Ok tt,
      ExitVaultUI.with_status "No injected wallet found (install MetaMask)" u,
      t)) /\
  (outcome (ConnectWallet.connectWallet ethers wallet onConnected s t) = Ok tt /\
   outcome (ExitVaultUI.connectWallet ethers wallet u t) = Ok tt) /\
  (forall prov e,
     wallet = Some prov -> handshake ethers prov = Throw e ->
     let r := ConnectWallet.connectWallet ethers wallet onConnected s t in
     let q := ExitVaultUI.connectWallet ethers wallet u t in
     (final r = s /\ last (trace r) = Some (report e)) /\
     ExitVaultUI.status (final q)
     = "Failed to connect wallet: " +:+ or_else (err_message e) (err_text e)) /\
  (forall prov conn f e s' t',
     wallet = Some prov -> handshake ethers prov = Ok conn ->
     onConnected = Some f ->
     f conn s (t ++ handshake_calls) = (Throw e, s', t') ->
     ConnectWallet.connectWallet ethers wallet onConnected s t
     = (Ok tt, s', t' ++ [report e])).
Proof.
  cbn zeta. split; [done|]. split_and!.
  - destruct wallet as [prov|]; [|done].
    pose proof (connectWallet_run ethers prov onConnected s t) as Hrun.
    cbn zeta in Hrun. destruct (handshake ethers prov) as [conn|e].
    + destruct onConnected as [f|]; [|by rewrite Hrun].
      destruct (f conn s _) as [[[[]|e] s'] t']; by rewrite Hrun.
    + by destruct Hrun as (-> & _).
  - destruct wallet as [prov|]; [|done].
    apply connectWallet_ui_run.
  - intros prov e -> He.
    pose proof (connectWallet_run ethers prov onConnected s t) as Hrun.
    pose proof (connectWallet_ui_run ethers prov u t) as (_ & Hui).
    cbn zeta in Hrun. rewrite He in Hrun, Hui.
    destruct Hrun as (_ & -> & ->). by destruct Hui as (-> & _).
  - intros prov conn f e s' t' -> Hconn -> Hf.
    pose proof (connectWallet_run ethers prov (Some f) s t) as Hrun.
    cbn zeta in Hrun. by rewrite Hconn, Hf in Hrun.
Qed.

(** The locked wallet rejects the authorization request: the dashboard's
    own callback is not reached, the state is the initial one and the
    rejection is alerted. *)
Lemma wallet_connector_contained_witness :
  let r :=
    ConnectWallet.connectWallet Mock.ethers (Some Mock.locked_wallet)
      (Some (App.onConnected Mock.ethers)) App.initial [] in
  let q :=
    ExitVaultUI.connectWallet Mock.ethers (Some Mock.locked_wallet)
      ExitVaultUI.initial [] in
  (final r = App.initial /\
   last (trace r)
   = Some (Alert "Failed to connect wallet: User rejected the request.")) /\
  ExitVaultUI.status (final q)
  = "Failed to connect wallet: User rejected the request.".
Proof.
  intros r q.
  destruct (wallet_connector_contained Mock.ethers (Some Mock.locked_wallet)
              (Some (App.onConnected Mock.ethers)) App.initial
              ExitVaultUI.initial [])
    as (_ & _ & Hfail & _).
  exact (Hfail Mock.locked_wallet Mock.rejection eq_refl eq_refl).
Defined.


(** * Further properties of [App.jsx] *)

(** The cells an action that passes its guards leaves alone, the loading
    flag it releases and the hash it records. *)
Lemma run_frame ethers nonpositive a (s : App.state) c :
  App.contract s = Some c ->
  amount_ok nonpositive a s = true ->
  let r := run ethers nonpositive a s [] in
  App.loading (final r) = false /\
  App.account (final r) = App.account s /\
  App.contract (final r) = App.contract s /\
  App.provider (final r) = App.provider s /\
  App.explorerBase (final r) = App.explorerBase s /\
  App.txHash (final r)
  = match submission ethers a s c with
    | Ok tx => Some (hash tx)
    | Throw _ => None
    end.
Proof.
  intros Hc Hamt r. subst r.
  destruct a; cbn [run amount_ok submission] in *.
  - apply andb_true_iff in Hamt as [Hne Hpos]. apply negb_true_iff in Hpos.
    step_handler. rewrite Hc, Hne, Hpos. cbn [negb orb].
    destruct (parseEther ethers (App.amount s)) as [value|e]; cbn;
      [|by destruct (App.user_rejected e)].
    destruct (c_invest c value) as [tx|e]; cbn;
      [|by destruct (App.user_rejected e)].
    destruct (wait tx) as [receipt|e]; cbn;
      [|by destruct (App.user_rejected e)].
    destruct (App.receipt_ok receipt); cbn;
      match goal with
      | |- context [App.fetchVaultBalance ?e ?v ?ad ?st ?tr] =>
          destruct (fetch_cases e c ad st tr)
            as (s' & -> & _ & Hh & _ & Ha & Hk & Hp & Hx & Hl)
      end; cbn in *; by rewrite Hh, Ha, Hk, Hp, Hx.
  - step_handler. rewrite Hc. cbn.
    destruct (c_withdraw c) as [tx|e]; cbn;
      [|by destruct (App.user_rejected e)].
    destruct (wait tx) as [receipt|e]; cbn;
      [|by destruct (App.user_rejected e)].
    destruct (App.receipt_ok receipt); cbn;
      match goal with
      | |- context [App.fetchVaultBalance ?e ?v ?ad ?st ?tr] =>
          destruct (fetch_cases e c ad st tr)
            as (s' & -> & _ & Hh & _ & Ha & Hk & Hp & Hx & Hl)
      end; cbn in *; by rewrite Hh, Ha, Hk, Hp, Hx.
Qed.

(** X6. Once the receipt of an accepted submission has arrived, on a
    session with an account, what the action leaves on display is the
    outcome of its balance refresh: the balance the contract returns with
    the message "Balance updated", or the earlier balance with the
    message of the failed read.  The confirmation (or failure) message of
    the transaction itself is overwritten either way. *)
Theorem display_after_receipt ethers nonpositive a (s : App.state) c addr tx receipt :
  App.contract s = Some c ->
  App.account s = Some addr ->
  truthy_str addr = true ->
  amount_ok nonpositive a s = true ->
  submission ethers a s c = Ok tx ->
  wait tx = Ok receipt ->
  let r := run ethers nonpositive a s [] in
  match c_balances c addr with
  | Ok raw =>
      App.balance (final r) = formatEther ethers raw /\
      App.message (final r) = "Balance updated"
  | Throw err =>
      App.balance (final r) = App.balance s /\
      App.message (final r)
      = "Failed to fetch balance: "
        +:+ nullish_else (err_message err) (err_text err)
  end.
Proof.
  intros Hc Hacc Haddr Hamt Hsub Hwait r. subst r.
  destruct a; cbn [run amount_ok submission] in *.
  - apply andb_true_iff in Hamt as [Hne Hpos]. apply negb_true_iff in Hpos.
    step_handler. rewrite Hc, Hne, Hpos, Hacc. cbn [negb orb].
    destruct (parseEther ethers (App.amount s)) as [value|e]; [|done].
    cbn. rewrite Hsub. cbn. rewrite Hwait. cbn.
    destruct (App.receipt_ok receipt); cbn;
      rewrite fetchVaultBalance_run by done;
      by destruct (c_balances c addr).
  - step_handler. rewrite Hc, Hacc. cbn. rewrite Hsub. cbn. rewrite Hwait. cbn.
    destruct (App.receipt_ok receipt); cbn;
      rewrite fetchVaultBalance_run by done;
      by destruct (c_balances c addr).
Qed.

Lemma display_after_receipt_witness :
  let r := run Mock.ethers Mock.nonpositive Invest (Mock.connected Mock.vault) [] in
  App.balance (final r) = "1.5" /\ App.message (final r) = "Balance updated".
Proof.
  exact (display_after_receipt Mock.ethers Mock.nonpositive Invest
           (Mock.connected Mock.vault) Mock.vault Mock.me Mock.tx_confirming
           (Some Mock.receipt_success)
           eq_refl eq_refl eq_refl eq_refl eq_refl eq_refl).
Defined.

(** [handleConnected], whatever the network and balance reads do. *)
Lemma handleConnected_cases ethers (conn : connection) (s : App.state) t :
  exists s',
    App.handleConnected ethers conn s t
    = (Ok tt, s',
       t ++ GetNetwork
            :: refresh_of (conn_contract conn) (Some (conn_address conn))) /\
    App.account s' = Some (conn_address conn) /\
    App.contract s' = Some (conn_contract conn) /\
    App.provider s' = Some (conn_provider conn) /\
    App.explorerBase s'
    = match getNetwork (conn_provider conn) with
      | Ok chainId => App.explorerBaseForChain chainId
      | Throw _ => App.explorerBase s
      end /\
    App.txStatus s' = App.txStatus s /\
    App.txHash s' = App.txHash s /\
    App.amount s' = App.amount s /\
    App.loading s' = false.
Proof.
  unfold App.handleConnected, try_catch, call, bind, emit, eval, ret,
    App.setProvider, App.setAccount, App.setContract, App.setMessage,
    App.setExplorerBase, modify.
  destruct (getNetwork (conn_provider conn)) as [chainId|e]; cbn;
    match goal with
    | |- context [App.fetchVaultBalance ?e ?v ?ad ?st ?tr] =>
        destruct (fetch_cases e (conn_contract conn) ad st tr)
          as (s' & -> & Hst & Hh & Ham & Ha & Hk & Hp & Hx & Hl)
    end; cbn in *; exists s'; rewrite <- app_assoc;
    by rewrite Hst, Hh, Ham, Ha, Hk, Hp, Hx, Hl.
Qed.

(** X1. [handleConnected] never throws and installs the session it is
    given: account, contract handle and provider handle are those of the
    connection; the explorer base is resolved from the chain id of the
    provider's network, and stays as it was when the network cannot be
    read; transaction status, hash and amount are untouched and the
    loading flag ends up false. *)
Theorem handleConnected_installs_session ethers (conn : connection)
  (s : App.state) (t : list event) :
  let r := App.handleConnected ethers conn s t in
  outcome r = Ok tt /\
  App.account (final r) = Some (conn_address conn) /\
  App.contract (final r) = Some (conn_contract conn) /\
  App.provider (final r) = Some (conn_provider conn) /\
  App.explorerBase (final r)
  = match getNetwork (conn_provider conn) with
    | Ok chainId => App.explorerBaseForChain chainId
    | Throw _ => App.explorerBase s
    end /\
  App.txStatus (final r) = App.txStatus s /\
  App.txHash (final r) = App.txHash s /\
  App.amount (final r) = App.amount s /\
  App.loading (final r) = false.
Proof.
  intros r. subst r.
  by destruct (handleConnected_cases ethers conn s t) as (s' & -> & H).
Qed.

(** X2. With a non-empty address, [handleConnected] asks the provider for
    its network and then reads the balance of the address on the new
    handle, once, and nothing else; the message it ends with is that of
    the balance read, not "Wallet connected: ...". *)
Theorem handleConnected_reads_balance ethers (conn : connection)
  (s : App.state) (t : list event) :
  truthy_str (conn_address conn) = true ->
  let r := App.handleConnected ethers conn s t in
  trace r
  = t ++ [GetNetwork; CallBalances (conn_contract conn) (conn_address conn)] /\
  match c_balances (conn_contract conn) (conn_address conn) with
  | Ok raw =>
      App.balance (final r) = formatEther ethers raw /\
      App.message (final r) = "Balance updated"
  | Throw err =>
      App.balance (final r) = App.balance s /\
      App.message (final r)
      = "Failed to fetch balance: "
        +:+ nullish_else (err_message err) (err_text err)
  end.
Proof.
  intros Haddr r. subst r.
  unfold App.handleConnected, try_catch, call, bind, emit, eval, ret,
    App.setProvider, App.setAccount, App.setContract, App.setMessage,
    App.setExplorerBase, modify.
  destruct (getNetwork (conn_provider conn)) as [chainId|e]; cbn;
    rewrite fetchVaultBalance_run by done; cbn; rewrite <- app_assoc;
    (split; [done|]);
    by destruct (c_balances (conn_contract conn) (conn_address conn)).
Qed.

Lemma handleConnected_reads_balance_witness :
  let conn :=
    {| conn_provider := Mock.unreachable_wallet; conn_signer := Mock.signer;
       conn_contract := Mock.rejecting_vault; conn_address := Mock.me |} in
  let r := App.handleConnected Mock.ethers conn App.initial [] in
  trace r = [GetNetwork; CallBalances Mock.rejecting_vault Mock.me] /\
  App.balance (final r) = "0" /\
  App.message (final r) = "Failed to fetch balance: Internal JSON-RPC error.".
Proof.
  intros conn r.
  destruct (handleConnected_reads_balance Mock.ethers conn App.initial []
              eq_refl) as (Htr & Hbal & Hmsg).
  by split_and!.
Defined.

(** X3. When the handshake succeeds, the connector of [ConnectWallet.jsx]
    with the dashboard's callback does exactly the handshake followed by
    [handleConnected] on its result: it returns normally, alerts nothing,
    whatever the network and balance reads do, and the account on display
    is the signer's address. *)
Theorem connect_flow_composes ethers prov conn (s : App.state)
  (t : list event) :
  handshake ethers prov = Ok conn ->
  let r :=
    ConnectWallet.connectWallet ethers (Some prov)
      (Some (App.onConnected ethers)) s t in
  let h := App.handleConnected ethers conn s (t ++ handshake_calls) in
  r = (Ok tt, final h, trace h) /\
  trace r
  = t ++ handshake_calls
      ++ GetNetwork :: refresh_of (conn_contract conn) (Some (conn_address conn)) /\
  App.account (final r) = Some (conn_address conn) /\
  conn_provider conn = prov /\
  getAddress (conn_signer conn) = Ok (conn_address conn).
Proof.
  intros Hconn r h. subst r h.
  pose proof (connectWallet_run ethers prov (Some (App.onConnected ethers)) s t)
    as Hrun.
  cbn zeta in Hrun. rewrite Hconn in Hrun.
  destruct (handleConnected_cases ethers conn s (t ++ handshake_calls))
    as (s' & Hh & Hacc & _).
  assert (Hcb : App.onConnected ethers conn s (t ++ handshake_calls)
                = App.handleConnected ethers conn s (t ++ handshake_calls)).
  { unfold App.onConnected, detached, try_catch. by rewrite Hh. }
  rewrite Hcb, Hh in Hrun. rewrite Hrun, Hh. cbn [final trace fst snd].
  split_and!; try done.
  - by rewrite <- app_assoc.
  - unfold handshake in Hconn. repeat case_match; by simplify_eq.
  - unfold handshake in Hconn. repeat case_match; by simplify_eq.
Qed.

Lemma connect_flow_composes_witness :
  let r :=
    ConnectWallet.connectWallet Mock.ethers (Some Mock.wallet)
      (Some (App.onConnected Mock.ethers)) App.initial [] in
  trace r
  = [RequestAccounts; GetSigner; GetAddress; NewContract; GetNetwork;
     CallBalances Mock.vault Mock.me] /\
  App.account (final r) = Some Mock.me.
Proof.
  intros r.
  destruct (connect_flow_composes Mock.ethers Mock.wallet
              {| conn_provider := Mock.wallet; conn_signer := Mock.signer;
                 conn_contract := Mock.vault; conn_address := Mock.me |}
              App.initial [] eq_refl) as (_ & Htr & Hacc & _).
  by split.
Defined.

(** X4. After an accounts-changed notification with an empty (or missing)
    list, invest and withdraw are both turned away with "Connect wallet
    first": they call nothing and change nothing but the message, and
    the refresh button reads nothing either. *)
Theorem actions_refused_after_disconnect ethers nonpositive (a : action)
  (s : App.state) (t : list event) :
  let gone := final (App.onAccountsChanged ethers (Some []) s []) in
  final (App.onAccountsChanged ethers None s []) = gone /\
  run ethers nonpositive a gone t
  = (Ok tt, App.with_message "Connect wallet first" gone, t) /\
  App.refresh ethers gone t = (Ok tt, App.with_loading false gone, t).
Proof.
  cbn zeta. split; [done|]. split.
  - by rewrite run_guard_fails.
  - unfold App.refresh, bind, get. by rewrite fetchVaultBalance_skip.
Qed.

(** X5. The loading flag, which disables the buttons, is released by
    every balance refresh, whatever its arguments and outcome, and by
    every action that passes its guards, whatever the outcome of the
    submission, of the wait and of the refresh; an action turned away by a
    guard does not touch it. *)
Theorem loading_released ethers nonpositive (a : action)
  (vault : option Contract) (addr : option string) (s : App.state)
  (t : list event) :
  App.loading (final (App.fetchVaultBalance ethers vault addr s t)) = false /\
  App.loading (final (run ethers nonpositive a s []))
  = if guards_pass nonpositive a s then false else App.loading s.
Proof.
  split.
  - destruct vault as [c|].
    + by destruct (fetch_cases ethers c addr s t)
        as (s' & -> & _ & _ & _ & _ & _ & _ & _ & Hl).
    + by rewrite fetchVaultBalance_skip.
  - destruct (guards_pass nonpositive a s) eqn:Hg.
    + unfold guards_pass in Hg. apply andb_true_iff in Hg as [Hc Hamt].
      destruct (App.contract s) as [c|] eqn:Hcs; [|done].
      by destruct (run_frame ethers nonpositive a s c Hcs Hamt) as (-> & _).
    + by rewrite run_guard_fails.
Qed.

(** X7. An action that passes its guards replaces the transaction hash:
    by the hash of the new transaction when the submission is accepted,
    by nothing when it throws.  So with an account on display the page
    links to the new transaction on the explorer of the session, and a
    link to an earlier transaction never survives a failed submission. *)
Theorem explorer_link_after_action ethers nonpositive (a : action)
  (s : App.state) c addr :
  App.contract s = Some c ->
  App.account s = Some addr ->
  truthy_str addr = true ->
  amount_ok nonpositive a s = true ->
  let r := run ethers nonpositive a s [] in
  match submission ethers a s c with
  | Ok tx =>
      App.txHash (final r) = Some (hash tx) /\
      App.explorer_link (final r)
      = if truthy_str (hash tx)
        then Some (App.explorerBase s +:+ "/tx/" +:+ hash tx)
        else None
  | Throw _ =>
      App.txHash (final r) = None /\
      App.explorer_link (final r) = None
  end.
Proof.
  intros Hc Hacc Haddr Hamt r. subst r.
  destruct (run_frame ethers nonpositive a s c Hc Hamt)
    as (_ & Ha & _ & _ & Hx & Hh).
  unfold App.explorer_link. rewrite Ha, Hx, Hh, Hacc. cbn. rewrite Haddr.
  by destruct (submission ethers a s c).
Qed.

Lemma explorer_link_after_action_witness :
  let s := Mock.connected Mock.vault in
  let s1 := final (run Mock.ethers Mock.nonpositive Invest s []) in
  let s2 :=
    final (run Mock.ethers Mock.nonpositive Invest
             (App.with_contract (Some Mock.rejecting_vault)
                (App.with_amount "0.5" s1)) []) in
  App.explorer_link s1 = Some "https://etherscan.io/tx/0xabc" /\
  App.explorer_link s2 = None.
Proof.
  intros s s1 s2. split.
  - exact (proj2 (explorer_link_after_action Mock.ethers Mock.nonpositive
                    Invest s Mock.vault Mock.me
                    eq_refl eq_refl eq_refl eq_refl)).
  - exact (proj2 (explorer_link_after_action Mock.ethers Mock.nonpositive
                    Invest
                    (App.with_contract (Some Mock.rejecting_vault)
                       (App.with_amount "0.5" s1))
                    Mock.rejecting_vault Mock.me
                    eq_refl eq_refl eq_refl eq_refl)).
Defined.

(** X8. An error thrown while waiting for the receipt is handled like one
    thrown by the submission: the status goes none, pending, failed; the
    message is the rejection text for code 4001 and the generic failure
    message otherwise; the balance is not read and the amount field keeps
    its content.  The hash of the submitted transaction stays on
    display. *)
Theorem wait_failure_handled ethers nonpositive (a : action)
  (s : App.state) c tx e :
  App.contract s = Some c ->
  amount_ok nonpositive a s = true ->
  submission ethers a s c = Ok tx ->
  wait tx = Throw e ->
  let r := run ethers nonpositive a s [] in
  outcome r = Ok tt /\
  status_writes (trace r) = [None; Some pending; Some failed] /\
  App.txStatus (final r) = Some failed /\
  App.message (final r)
  = (if App.user_rejected e then "Transaction rejected by user."
     else generic_failure a e) /\
  App.txHash (final r) = Some (hash tx) /\
  balance_reads (trace r) = [] /\
  App.balance (final r) = App.balance s /\
  App.amount (final r) = App.amount s.
Proof.
  intros Hc Hamt Hsub Hwait r. subst r.
  destruct (run_summary ethers nonpositive a s c Hc Hamt) as (Hok & _ & Hsum).
  destruct (run_frame ethers nonpositive a s c Hc Hamt) as (_ & _ & _ & _ & _ & Hh).
  rewrite Hsub in Hsum, Hh. rewrite Hwait in Hsum.
  by destruct Hsum as (-> & -> & -> & -> & -> & ->).
Qed.

Lemma wait_failure_handled_witness :
  let r :=
    run Mock.ethers Mock.nonpositive Withdraw
      (Mock.connected Mock.dropping_vault) [] in
  status_writes (trace r) = [None; Some pending; Some failed] /\
  App.message (final r) = "Withdrawal failed: Internal JSON-RPC error." /\
  App.txHash (final r) = Some "0x123" /\
  App.amount (final r) = "0.5".
Proof.
  intros r.
  destruct (wait_failure_handled Mock.ethers Mock.nonpositive Withdraw
              (Mock.connected Mock.dropping_vault) Mock.dropping_vault
              Mock.tx_dropped Mock.outage eq_refl eq_refl eq_refl eq_refl)
    as (_ & Hw & _ & Hmsg & Hh & _ & _ & Ham).
  by split_and!.
Defined.

(** X9. When the submission throws an error that carries no code 4001,
    the message is the action's failure prefix followed by the error's
    [reason] if it has a non-empty one, else by its [message] if it has a
    non-empty one, else by the error itself; the status is failed and no
    transaction link is shown. *)
Theorem generic_failure_reported ethers nonpositive (a : action)
  (s : App.state) c e :
  App.contract s = Some c ->
  amount_ok nonpositive a s = true ->
  submission ethers a s c = Throw e ->
  err_code e <> Some 4001%Z ->
  err_data_code e <> Some 4001%Z ->
  let r := run ethers nonpositive a s [] in
  let prefix :=
    match a with
    | Invest => "Investment failed: "
    | Withdraw => "Withdrawal failed: "
    end in
  let detail :=
    match err_reason e, err_message e with
    | Some reason, Some msg =>
        if truthy_str reason then reason
        else if truthy_str msg then msg else err_text e
    | Some reason, None => if truthy_str reason then reason else err_text e
    | None, Some msg => if truthy_str msg then msg else err_text e
    | None, None => err_text e
    end in
  App.message (final r) = prefix +:+ detail /\
  App.txStatus (final r) = Some failed /\
  App.txHash (final r) = None /\
  App.explorer_link (final r) = None.
Proof.
  intros Hc Hamt Hsub Hcode Hdata r prefix detail. subst r prefix detail.
  destruct (run_summary ethers nonpositive a s c Hc Hamt) as (_ & _ & Hsum).
  destruct (run_frame ethers nonpositive a s c Hc Hamt) as (_ & _ & _ & _ & _ & Hh).
  rewrite Hsub in Hsum, Hh.
  destruct Hsum as (_ & _ & Hst & Hmsg & _).
  assert (Hrej : App.user_rejected e = false).
  { unfold App.user_rejected. apply orb_false_iff.
    split; by apply bool_decide_eq_false. }
  rewrite Hrej in Hmsg. rewrite Hmsg, Hst.
  unfold App.explorer_link. rewrite Hh.
  split_and!; try done; [|by destruct (truthy_ostr _)].
  unfold generic_failure, App.reason_of, or_else.
  destruct a, (err_reason e) as [reason|], (err_message e) as [msg|];
    try done; by destruct (truthy_str reason).
Qed.

Lemma generic_failure_reported_witness :
  let vault :=
    {| c_invest := fun _ => Throw Mock.outage;
       c_withdraw := Throw Mock.outage;
       c_balances := fun _ => Throw Mock.outage;
       c_getBalance := fun _ => Throw Mock.outage;
       c_removeAllListeners := fun _ => Ok tt |} in
  let r := run Mock.ethers Mock.nonpositive Invest (Mock.connected vault) [] in
  App.message (final r) = "Investment failed: Internal JSON-RPC error." /\
  App.txStatus (final r) = Some failed.
Proof.
  intros vault r.
  destruct (generic_failure_reported Mock.ethers Mock.nonpositive Invest
              (Mock.connected vault) vault Mock.outage
              eq_refl eq_refl eq_refl) as (Hmsg & Hst & _); [done|done|].
  by split.
Defined.

(** X10. On a session with a contract handle, invest with an empty amount
    field, or with an amount that is [<= 0], only sets the message "Enter
    a valid amount in ETH": nothing is parsed or submitted, and no other
    cell changes. *)
Theorem invalid_amount_refused ethers nonpositive (s : App.state) c
  (t : list event) :
  App.contract s = Some c ->
  App.amount s = "" \/ nonpositive (App.amount s) = true ->
  run ethers nonpositive Invest s t
  = (Ok tt, App.with_message "Enter a valid amount in ETH" s, t).
Proof.
  intros Hc Hamt. rewrite run_guard_fails; rewrite ?Hc; [done|].
  unfold guards_pass, amount_ok. rewrite Hc. cbn.
  destruct Hamt as [->| ->]; [done|apply andb_false_r].
Qed.

Lemma invalid_amount_refused_witness :
  let s := App.with_amount "" (Mock.connected Mock.vault) in
  let z := App.with_amount "-1" (Mock.connected Mock.vault) in
  run Mock.ethers Mock.nonpositive Invest s []
  = (Ok tt, App.with_message "Enter a valid amount in ETH" s, []) /\
  run Mock.ethers Mock.nonpositive Invest z []
  = (Ok tt, App.with_message "Enter a valid amount in ETH" z, []).
Proof.
  intros s z. split.
  - exact (invalid_amount_refused Mock.ethers Mock.nonpositive s Mock.vault []
             eq_refl (or_introl eq_refl)).
  - exact (invalid_amount_refused Mock.ethers Mock.nonpositive z Mock.vault []
             eq_refl (or_intror eq_refl)).
Defined.


(** * Further properties of [ExitVault.jsx] *)

Ltac step_ui :=
  unfold ExitVaultUI.doInvest, ExitVaultUI.doWithdraw, ExitVaultUI.disconnect,
    ExitVaultUI.onInvestEvent, ExitVaultUI.onWithdrawEvent, detached,
    try_catch, call, bind, emit, eval, get, ret, ExitVaultUI.addTx,
    ExitVaultUI.setTxs, ExitVaultUI.setStatus, ExitVaultUI.setInputEth,
    ExitVaultUI.setAccount, ExitVaultUI.setContract, ExitVaultUI.setSigner,
    modify.

(** A balance refresh of the component returns normally and touches only
    the displayed balance and the status line. *)
Lemma fetchBalance_frame ethers c addr (s : ExitVaultUI.state) t :
  exists s' t',
    ExitVaultUI.fetchBalance ethers c addr s t = (Ok tt, s', t') /\
    ExitVaultUI.txs s' = ExitVaultUI.txs s /\
    ExitVaultUI.inputEth s' = ExitVaultUI.inputEth s /\
    ExitVaultUI.account s' = ExitVaultUI.account s /\
    ExitVaultUI.contract s' = ExitVaultUI.contract s /\
    ExitVaultUI.signer s' = ExitVaultUI.signer s /\
    ExitVaultUI.provider s' = ExitVaultUI.provider s.
Proof.
  unfold ExitVaultUI.fetchBalance, try_catch, call, bind, emit, eval, ret,
    ExitVaultUI.setBalanceEth, ExitVaultUI.setStatus, modify.
  destruct c as [c|], addr as [a|]; cbn; eauto 10.
  destruct (truthy_str a); cbn; eauto 10.
  destruct (c_getBalance c a); eauto 10.
Qed.

Lemma take_cons_take {A} (n : nat) (x : A) (l : list A) :
  take n (x :: take n l) = take n (x :: l).
Proof. apply (take_app_take n [x] l). Qed.

(** X11. A [doInvest] whose transaction is sent and waited for without an
    error puts two entries on top of the activity log, "Confirmed:
    Invest" above "Invest (sent)", both under the transaction's hash,
    empties the input and reads the balance once.  It ends with the new
    balance and "Invest confirmed", or, when the read fails, with the old
    balance and the message of the failed read.  The receipt is not looked
    at: this holds whatever [wait] returns. *)
Theorem doInvest_confirmed ethers nonpositive sendTransaction
  (sent_at confirmed_at : string) (s : ExitVaultUI.state)
  c sg addr value tx receipt :
  ExitVaultUI.contract s = Some c ->
  ExitVaultUI.signer s = Some sg ->
  ExitVaultUI.account s = Some addr ->
  truthy_str addr = true ->
  truthy_str (ExitVaultUI.inputEth s) = true ->
  nonpositive (ExitVaultUI.inputEth s) = false ->
  parseEther ethers (ExitVaultUI.inputEth s) = Ok value ->
  sendTransaction sg value = Ok tx ->
  wait tx = Ok receipt ->
  let r :=
    ExitVaultUI.doInvest ethers nonpositive sendTransaction
      sent_at confirmed_at s [] in
  let sent :=
    {| ExitVaultUI.e_hash := hash tx; ExitVaultUI.e_note := "Invest (sent)";
       ExitVaultUI.e_time := sent_at |} in
  let done :=
    {| ExitVaultUI.e_hash := hash tx;
       ExitVaultUI.e_note := "Confirmed: Invest";
       ExitVaultUI.e_time := confirmed_at |} in
  outcome r = Ok tt /\
  trace r = [CallWait tx; CallGetBalance c addr] /\
  ExitVaultUI.txs (final r) = take 20 (done :: sent :: ExitVaultUI.txs s) /\
  ExitVaultUI.inputEth (final r) = "" /\
  match c_getBalance c addr with
  | Ok bal =>
      ExitVaultUI.balanceEth (final r) = formatEther ethers bal /\
      ExitVaultUI.status (final r) = "Invest confirmed"
  | Throw err =>
      ExitVaultUI.balanceEth (final r) = ExitVaultUI.balanceEth s /\
      ExitVaultUI.status (final r)
      = "Failed to fetch balance: "
        +:+ or_else (err_message err) (err_text err)
  end.
Proof.
  intros Hc Hsg Hacc Haddr Hne Hpos Hparse Hsend Hwait r sent done.
  subst r sent done. step_ui.
  rewrite Hc, Hsg, Hne, Hpos, Hparse, Hsend, Hacc.
  cbn -[take ExitVaultUI.fetchBalance].
  rewrite Hwait. cbn -[take ExitVaultUI.fetchBalance].
  rewrite fetchBalance_run by done.
  by destruct (c_getBalance c addr); cbn -[take]; rewrite take_cons_take.
Qed.

Lemma doInvest_confirmed_witness :
  let r :=
    ExitVaultUI.doInvest Mock.ethers Mock.nonpositive Mock.sendTransaction
      "10:00:00" "10:00:15" (Mock.ui_connected Mock.vault) [] in
  ExitVaultUI.e_note <$> ExitVaultUI.txs (final r)
  = ["Confirmed: Invest"; "Invest (sent)"] /\
  ExitVaultUI.inputEth (final r) = "" /\
  ExitVaultUI.balanceEth (final r) = "1.5" /\
  ExitVaultUI.status (final r) = "Invest confirmed".
Proof.
  intros r.
  destruct (doInvest_confirmed Mock.ethers Mock.nonpositive
              Mock.sendTransaction "10:00:00" "10:00:15"
              (Mock.ui_connected Mock.vault) Mock.vault Mock.signer Mock.me
              500000000000000000 Mock.tx_confirming
              (Some Mock.receipt_success)
              eq_refl eq_refl eq_refl eq_refl eq_refl eq_refl eq_refl eq_refl
              eq_refl)
    as (_ & _ & Hlog & Hin & Hbal & Hst).
  subst r. rewrite Hlog. by split_and!.
Defined.

(** X12. A [doInvest] that fails keeps the typed amount.  When the amount
    does not parse or the signer refuses the transaction, only the status
    line changes, to "Tx failed: ..." with the error's message: the log
    gets no entry and nothing is waited for or read.  When the wait for
    the transaction throws, the log has got its "Invest (sent)" entry but
    no "Confirmed: Invest", and the balance is not read. *)
Theorem doInvest_failure ethers nonpositive sendTransaction
  (sent_at confirmed_at : string) (s : ExitVaultUI.state) c sg e :
  ExitVaultUI.contract s = Some c ->
  ExitVaultUI.signer s = Some sg ->
  truthy_str (ExitVaultUI.inputEth s) = true ->
  nonpositive (ExitVaultUI.inputEth s) = false ->
  let r :=
    ExitVaultUI.doInvest ethers nonpositive sendTransaction
      sent_at confirmed_at s [] in
  let report :=
    "Tx failed: " +:+ or_else (err_message e) (err_text e) in
  (parseEther ethers (ExitVaultUI.inputEth s) = Throw e \/
   (exists value,
      parseEther ethers (ExitVaultUI.inputEth s) = Ok value /\
      sendTransaction sg value = Throw e) ->
   r = (Ok tt, ExitVaultUI.with_status report s, [])) /\
  (forall value tx,
     parseEther ethers (ExitVaultUI.inputEth s) = Ok value ->
     sendTransaction sg value = Ok tx ->
     wait tx = Throw e ->
     outcome r = Ok tt /\
     trace r = [CallWait tx] /\
     ExitVaultUI.txs (final r)
     = take 20 ({| ExitVaultUI.e_hash := hash tx;
                   ExitVaultUI.e_note := "Invest (sent)";
                   ExitVaultUI.e_time := sent_at |} :: ExitVaultUI.txs s) /\
     ExitVaultUI.status (final r) = report /\
     ExitVaultUI.inputEth (final r) = ExitVaultUI.inputEth s /\
     ExitVaultUI.balanceEth (final r) = ExitVaultUI.balanceEth s).
Proof.
  intros Hc Hsg Hne Hpos r report. subst r report. split.
  - intros Hfail. step_ui. rewrite Hc, Hsg, Hne, Hpos. cbn.
    destruct Hfail as [->|(value & -> & Hsend)]; cbn.
    + by destruct s.
    + rewrite Hsend. by destruct s.
  - intros value tx Hparse Hsend Hwait. step_ui.
    rewrite Hc, Hsg, Hne, Hpos, Hparse, Hsend. cbn -[take].
    rewrite Hwait. by cbn -[take].
Qed.

Lemma doInvest_failure_witness :
  let s := Mock.ui_connected Mock.vault in
  let r :=
    ExitVaultUI.doInvest Mock.ethers Mock.nonpositive
      Mock.sendTransaction_dropped "10:00:00" "10:00:15" s [] in
  let q :=
    ExitVaultUI.doInvest Mock.ethers Mock.nonpositive Mock.sendTransaction
      "10:00:00" "10:00:15" (ExitVaultUI.with_inputEth "1e3" s) [] in
  (ExitVaultUI.e_note <$> ExitVaultUI.txs (final r) = ["Invest (sent)"] /\
   ExitVaultUI.status (final r) = "Tx failed: Internal JSON-RPC error." /\
   ExitVaultUI.inputEth (final r) = "0.5") /\
  (ExitVaultUI.txs (final q) = [] /\
   ExitVaultUI.status (final q) = "Tx failed: invalid FixedNumber string value" /\
   ExitVaultUI.inputEth (final q) = "1e3").
Proof.
  intros s r q. split.
  - destruct (doInvest_failure Mock.ethers Mock.nonpositive
                Mock.sendTransaction_dropped "10:00:00" "10:00:15" s
                Mock.vault Mock.signer Mock.outage
                eq_refl eq_refl eq_refl eq_refl) as (_ & Hwait).
    destruct (Hwait 500000000000000000%Z Mock.tx_dropped eq_refl eq_refl eq_refl)
      as (_ & _ & Hlog & Hst & Hin & _).
    subst r. rewrite Hlog. by split_and!.
  - destruct (doInvest_failure Mock.ethers Mock.nonpositive
                Mock.sendTransaction "10:00:00" "10:00:15"
                (ExitVaultUI.with_inputEth "1e3" s)
                Mock.vault Mock.signer Mock.invalid_number
                eq_refl eq_refl eq_refl eq_refl) as (Hparse & _).
    subst q. by rewrite (Hparse (or_introl eq_refl)).
Defined.

(** X13. [doWithdraw] submits nothing in three cases.  When the prompt is
    cancelled or left empty, nothing happens at all: no cell changes, not
    even the status line.  When the answer does not parse as an amount,
    only the status line changes, to "Withdraw failed: ..." with the
    error's message; the contract is not called and the log gets no entry. *)
Theorem doWithdraw_without_submission ethers withdraw
  (answer : option string) (initiated_at confirmed_at : string)
  (s : ExitVaultUI.state) c sg (t : list event) :
  ExitVaultUI.contract s = Some c ->
  ExitVaultUI.signer s = Some sg ->
  let r :=
    ExitVaultUI.doWithdraw ethers withdraw answer initiated_at confirmed_at s t in
  match answer with
  | None => r = (Ok tt, s, t)
  | Some amount =>
      if truthy_str amount then
        match parseEther ethers amount with
        | Throw e =>
            r = (Ok tt,
                 ExitVaultUI.with_status
                   ("Withdraw failed: "
                    +:+ or_else (err_message e) (err_text e)) s,
                 t)
        | Ok _ => True
        end
      else r = (Ok tt, s, t)
  end.
Proof.
  intros Hc Hsg r. subst r. step_ui. rewrite Hc, Hsg.
  destruct answer as [amount|]; [|done].
  destruct (truthy_str amount); [|done]. cbn.
  by destruct (parseEther ethers amount).
Qed.

Lemma doWithdraw_without_submission_witness :
  let s := Mock.ui_connected Mock.vault in
  ExitVaultUI.doWithdraw Mock.ethers Mock.withdraw_wei None "t1" "t2" s []
  = (Ok tt, s, []) /\
  ExitVaultUI.doWithdraw Mock.ethers Mock.withdraw_wei (Some "") "t1" "t2" s []
  = (Ok tt, s, []) /\
  ExitVaultUI.doWithdraw Mock.ethers Mock.withdraw_wei (Some "all") "t1" "t2" s []
  = (Ok tt,
     ExitVaultUI.with_status
       "Withdraw failed: invalid FixedNumber string value" s,
     []).
Proof.
  intros s. split_and!.
  - exact (doWithdraw_without_submission Mock.ethers Mock.withdraw_wei None
             "t1" "t2" s Mock.vault Mock.signer [] eq_refl eq_refl).
  - exact (doWithdraw_without_submission Mock.ethers Mock.withdraw_wei
             (Some "") "t1" "t2" s Mock.vault Mock.signer [] eq_refl eq_refl).
  - exact (doWithdraw_without_submission Mock.ethers Mock.withdraw_wei
             (Some "all") "t1" "t2" s Mock.vault Mock.signer [] eq_refl eq_refl).
Defined.

(** X14. A [doWithdraw] whose transaction is submitted and waited for
    without an error puts "Withdraw confirmed <amount> ETH" above
    "Withdraw initiated <amount> ETH" on top of the log, quoting the answer
    as typed, and reads the balance once; the input field is not touched.
    When the contract refuses the submission the log gets no entry, and
    when the wait throws it has only the "initiated" entry; in both cases
    the status line reports "Withdraw failed: ..." and the balance is not
    read. *)
Theorem doWithdraw_outcomes ethers withdraw (amount : string)
  (initiated_at confirmed_at : string) (s : ExitVaultUI.state)
  c sg addr wei :
  ExitVaultUI.contract s = Some c ->
  ExitVaultUI.signer s = Some sg ->
  ExitVaultUI.account s = Some addr ->
  truthy_str addr = true ->
  truthy_str amount = true ->
  parseEther ethers amount = Ok wei ->
  let r :=
    ExitVaultUI.doWithdraw ethers withdraw (Some amount)
      initiated_at confirmed_at s [] in
  let entry tx note at_time :=
    {| ExitVaultUI.e_hash := hash tx;
       ExitVaultUI.e_note := note +:+ amount +:+ " ETH";
       ExitVaultUI.e_time := at_time |} in
  let report e :=
    "Withdraw failed: " +:+ or_else (err_message e) (err_text e) in
  outcome r = Ok tt /\
  ExitVaultUI.inputEth (final r) = ExitVaultUI.inputEth s /\
  match withdraw c wei with
  | Throw e =>
      trace r = [] /\
      ExitVaultUI.txs (final r) = ExitVaultUI.txs s /\
      ExitVaultUI.status (final r) = report e
  | Ok tx =>
      match wait tx with
      | Throw e =>
          trace r = [CallWait tx] /\
          ExitVaultUI.txs (final r)
          = take 20 (entry tx "Withdraw initiated " initiated_at
                     :: ExitVaultUI.txs s) /\
          ExitVaultUI.status (final r) = report e
      | Ok _ =>
          trace r = [CallWait tx; CallGetBalance c addr] /\
          ExitVaultUI.txs (final r)
          = take 20 (entry tx "Withdraw confirmed " confirmed_at
                     :: entry tx "Withdraw initiated " initiated_at
                     :: ExitVaultUI.txs s) /\
          match c_getBalance c addr with
          | Ok bal =>
              ExitVaultUI.balanceEth (final r) = formatEther ethers bal /\
              ExitVaultUI.status (final r) = "Withdraw confirmed"
          | Throw err =>
              ExitVaultUI.balanceEth (final r) = ExitVaultUI.balanceEth s /\
              ExitVaultUI.status (final r)
              = "Failed to fetch balance: "
                +:+ or_else (err_message err) (err_text err)
          end
      end
  end.
Proof.
  intros Hc Hsg Hacc Haddr Hamt Hparse r entry report.
  subst r entry report. step_ui.
  rewrite Hc, Hsg, Hamt, Hparse, Hacc.
  cbn -[take ExitVaultUI.fetchBalance].
  destruct (withdraw c wei) as [tx|e]; [|done].
  cbn -[take ExitVaultUI.fetchBalance].
  destruct (wait tx) as [receipt|e]; [|done].
  cbn -[take ExitVaultUI.fetchBalance].
  rewrite fetchBalance_run by done.
  by destruct (c_getBalance c addr); cbn -[take]; rewrite take_cons_take.
Qed.

Lemma doWithdraw_outcomes_witness :
  let r :=
    ExitVaultUI.doWithdraw Mock.ethers Mock.withdraw_wei (Some "0.5")
      "10:00:00" "10:00:15" (Mock.ui_connected Mock.vault) [] in
  ExitVaultUI.e_note <$> ExitVaultUI.txs (final r)
  = ["Withdraw confirmed 0.5 ETH"; "Withdraw initiated 0.5 ETH"] /\
  ExitVaultUI.status (final r) = "Withdraw confirmed".
Proof.
  intros r.
  destruct (doWithdraw_outcomes Mock.ethers Mock.withdraw_wei "0.5"
              "10:00:00" "10:00:15" (Mock.ui_connected Mock.vault)
              Mock.vault Mock.signer Mock.me 500000000000000000
              eq_refl eq_refl eq_refl eq_refl eq_refl eq_refl)
    as (_ & _ & _ & Hlog & _ & Hst).
  subst r. rewrite Hlog. by split.
Defined.

(** X15. The "Disconnect" button clears the account, the contract handle
    and the signer and leaves the provider handle, the displayed balance,
    the input and the activity log as they were.  After it, [doInvest] and
    [doWithdraw] are turned away with "Connect wallet first" before the
    amount is looked at or the prompt shown, and change nothing else. *)
Theorem disconnect_then_refused ethers nonpositive sendTransaction withdraw
  (answer : option string) (t1 t2 : string) (s : ExitVaultUI.state)
  (t : list event) :
  let gone := final (ExitVaultUI.disconnect s t) in
  ExitVaultUI.disconnect s t = (Ok tt, gone, t) /\
  (ExitVaultUI.account gone = None /\
   ExitVaultUI.contract gone = None /\
   ExitVaultUI.signer gone = None /\
   ExitVaultUI.status gone = "Disconnected") /\
  (ExitVaultUI.provider gone = ExitVaultUI.provider s /\
   ExitVaultUI.balanceEth gone = ExitVaultUI.balanceEth s /\
   ExitVaultUI.inputEth gone = ExitVaultUI.inputEth s /\
   ExitVaultUI.txs gone = ExitVaultUI.txs s) /\
  ExitVaultUI.doInvest ethers nonpositive sendTransaction t1 t2 gone t
  = (Ok tt, ExitVaultUI.with_status "Connect wallet first" gone, t) /\
  ExitVaultUI.doWithdraw ethers withdraw answer t1 t2 gone t
  = (Ok tt, ExitVaultUI.with_status "Connect wallet first" gone, t).
Proof. by split_and!. Qed.


(** ** The cap of the log as an invariant of the page *)

Section KeepsCap.
Implicit Types s : ExitVaultUI.state.

Lemma keeps_ret {A} (a : A) : keeps_log_capped (ret a).
Proof. by intros s t. Qed.

Lemma keeps_eval {A} (r : result A) : keeps_log_capped (eval r).
Proof. by intros s t. Qed.

Lemma keeps_emit e : keeps_log_capped (emit e).
Proof. by intros s t. Qed.

Lemma keeps_get : keeps_log_capped get.
Proof. by intros s t. Qed.

Lemma keeps_bind {A B} (m : M ExitVaultUI.state A)
  (k : A -> M ExitVaultUI.state B) :
  keeps_log_capped m -> (forall a, keeps_log_capped (k a)) ->
  keeps_log_capped (bind m k).
Proof.
  intros Hm Hk s t Hs. unfold bind. specialize (Hm s t Hs).
  destruct (m s t) as [[[a|e] s'] t']; [by apply Hk|done].
Qed.

Lemma keeps_call {A} e (r : result A) : keeps_log_capped (call e r).
Proof. apply keeps_bind; [apply keeps_emit|intros; apply keeps_eval]. Qed.

Lemma keeps_try_catch {A} (m : M ExitVaultUI.state A) h :
  keeps_log_capped m -> (forall e, keeps_log_capped (h e)) ->
  keeps_log_capped (try_catch m h).
Proof.
  intros Hm Hh s t Hs. unfold try_catch. specialize (Hm s t Hs).
  destruct (m s t) as [[[a|e] s'] t']; [done|by apply Hh].
Qed.

Lemma keeps_detached (m : M ExitVaultUI.state unit) :
  keeps_log_capped m -> keeps_log_capped (detached m).
Proof. intros Hm. apply keeps_try_catch; [done|intros; apply keeps_ret]. Qed.

(** A setter of another cell. *)
Lemma keeps_modify f :
  (forall s, ExitVaultUI.txs (f s) = ExitVaultUI.txs s) ->
  keeps_log_capped (modify f).
Proof. intros Hf s t Hs. unfold log_capped in *. cbn. by rewrite Hf. Qed.

Lemma keeps_addTx now h note : keeps_log_capped (ExitVaultUI.addTx now h note).
Proof.
  intros s t _. unfold log_capped. cbn. rewrite length_take. lia.
Qed.

End KeepsCap.

Create HintDb log_cap.
#[local] Hint Resolve keeps_ret keeps_eval keeps_emit keeps_get keeps_call
  keeps_addTx keeps_detached : log_cap.
#[local] Hint Extern 2 (keeps_log_capped (bind _ _)) =>
  apply keeps_bind; [|intros] : log_cap.
#[local] Hint Extern 2 (keeps_log_capped (try_catch _ _)) =>
  apply keeps_try_catch; [|intros] : log_cap.
#[local] Hint Extern 1 (keeps_log_capped (modify _)) =>
  apply keeps_modify; intros; reflexivity : log_cap.
#[local] Hint Extern 3 (keeps_log_capped (match ?x with _ => _ end)) =>
  destruct x : log_cap.
#[local] Hint Unfold ExitVaultUI.setStatus ExitVaultUI.setInputEth
  ExitVaultUI.setAccount ExitVaultUI.setContract ExitVaultUI.setSigner
  ExitVaultUI.setProvider ExitVaultUI.setBalanceEth : log_cap.

Ltac keep_cap := auto 30 with log_cap.

Lemma keeps_fetchBalance ethers c addr :
  keeps_log_capped (ExitVaultUI.fetchBalance ethers c addr).
Proof.
  unfold ExitVaultUI.fetchBalance, ExitVaultUI.setBalanceEth,
    ExitVaultUI.setStatus.
  destruct c, addr; keep_cap.
Qed.

Lemma keeps_listenEvents c : keeps_log_capped (ExitVaultUI.listenEvents c).
Proof. unfold ExitVaultUI.listenEvents. destruct c; keep_cap. Qed.

#[local] Hint Resolve keeps_fetchBalance keeps_listenEvents : log_cap.

(** X16. The cap of the activity log is an invariant of the whole page of
    [ExitVault.jsx]: every handler takes a log of at most 20 entries to a
    log of at most 20 entries, whatever the wallet, the contract and the
    library return or throw; so from the page as first loaded, the log
    never exceeds 20 entries after any sequence of clicks, inputs and
    contract events. *)
Theorem page_keeps_log_capped ethers nonpositive sendTransaction withdraw
  toLowerCase window_ethereum (evs : list ui_event) :
  (forall ev,
     keeps_log_capped
       (handle ethers nonpositive sendTransaction withdraw toLowerCase
          window_ethereum ev)) /\
  log_capped
    (page_after ethers nonpositive sendTransaction withdraw toLowerCase
       window_ethereum evs ExitVaultUI.initial).
Proof.
  assert (Hev : forall ev,
    keeps_log_capped
      (handle ethers nonpositive sendTransaction withdraw toLowerCase
         window_ethereum ev)).
  { intros [| | |text|t1 t2|answer t1 t2|snap now investor amount
            |snap now investor amount]; cbn [handle].
    - unfold ExitVaultUI.connectWallet, ExitVaultUI.setStatus,
        ExitVaultUI.setProvider, ExitVaultUI.setSigner,
        ExitVaultUI.setAccount, ExitVaultUI.setContract.
      destruct window_ethereum; keep_cap.
    - unfold ExitVaultUI.disconnect, ExitVaultUI.setStatus,
        ExitVaultUI.setSigner, ExitVaultUI.setAccount,
        ExitVaultUI.setContract. keep_cap.
    - unfold ExitVaultUI.refresh. keep_cap.
    - unfold ExitVaultUI.setInputEth. keep_cap.
    - unfold ExitVaultUI.doInvest, ExitVaultUI.setStatus,
        ExitVaultUI.setInputEth.
      apply keeps_bind; [keep_cap|intros snap].
      destruct (ExitVaultUI.contract snap), (ExitVaultUI.signer snap);
        keep_cap.
    - unfold ExitVaultUI.doWithdraw, ExitVaultUI.setStatus.
      apply keeps_bind; [keep_cap|intros snap].
      destruct (ExitVaultUI.contract snap), (ExitVaultUI.signer snap);
        keep_cap.
    - unfold ExitVaultUI.onInvestEvent. cbn zeta.
      keep_cap.
    - unfold ExitVaultUI.onWithdrawEvent. cbn zeta.
      keep_cap. }
  split; [exact Hev|].
  assert (Hall : forall s, log_capped s ->
    log_capped
      (page_after ethers nonpositive sendTransaction withdraw toLowerCase
         window_ethereum evs s)).
  { induction evs as [|ev rest IH]; intros s Hs; [done|].
    cbn [page_after]. apply IH. by apply Hev. }
  apply Hall. unfold log_capped. cbn. lia.
Qed.

(** ** Contract events *)

(** X17. A listener for the contract's Invest (resp. Withdraw) event
    never throws and puts one entry on top of the log, under the key
    [event:<investor>:<amount>] with the amount in wei, and touches no
    other cell but the balance and status a refresh may set.  It reads the
    balance only when the investor is, up to letter case, the account of
    the render that subscribed it and that render had a contract handle:
    a listener subscribed from a page with no account, as the page is
    when Connect is clicked, reads nothing whoever the investor is. *)
Theorem event_listener_logs ethers toLowerCase (snap s : ExitVaultUI.state)
  (now investor : string) (amount : Z) (t : list event) :
  let r := ExitVaultUI.onInvestEvent ethers toLowerCase snap now investor amount s t in
  let q := ExitVaultUI.onWithdrawEvent ethers toLowerCase snap now investor amount s t in
  let key := "event:" +:+ investor +:+ ":" +:+ pretty amount in
  let invested :=
    {| ExitVaultUI.e_hash := key;
       ExitVaultUI.e_note :=
         "Invest event " +:+ investor +:+ " +"
         +:+ formatEther ethers amount +:+ " ETH";
       ExitVaultUI.e_time := now |} in
  let withdrawn :=
    {| ExitVaultUI.e_hash := key;
       ExitVaultUI.e_note :=
         "Withdraw event " +:+ investor +:+ " -"
         +:+ formatEther ethers amount +:+ " ETH";
       ExitVaultUI.e_time := now |} in
  (outcome r = Ok tt /\
   ExitVaultUI.txs (final r) = take 20 (invested :: ExitVaultUI.txs s) /\
   ExitVaultUI.account (final r) = ExitVaultUI.account s /\
   ExitVaultUI.contract (final r) = ExitVaultUI.contract s /\
   ExitVaultUI.inputEth (final r) = ExitVaultUI.inputEth s) /\
  (outcome q = Ok tt /\
   ExitVaultUI.txs (final q) = take 20 (withdrawn :: ExitVaultUI.txs s) /\
   ExitVaultUI.account (final q) = ExitVaultUI.account s /\
   ExitVaultUI.contract (final q) = ExitVaultUI.contract s /\
   ExitVaultUI.inputEth (final q) = ExitVaultUI.inputEth s) /\
  (String.eqb (toLowerCase investor)
     (toLowerCase (or_else (ExitVaultUI.account snap) "")) = false \/
   truthy_obj (ExitVaultUI.contract snap)
   && truthy_ostr (ExitVaultUI.account snap) = false ->
   r = (Ok tt, ExitVaultUI.with_txs (fun log => take 20 (invested :: log)) s, t) /\
   q = (Ok tt, ExitVaultUI.with_txs (fun log => take 20 (withdrawn :: log)) s, t)).
Proof.
  unfold ExitVaultUI.onInvestEvent, ExitVaultUI.onWithdrawEvent. cbn zeta.
  set (key := "event:" +:+ investor +:+ ":" +:+ pretty amount).
  set (note1 := "Invest event " +:+ _). set (note2 := "Withdraw event " +:+ _).
  clearbody key note1 note2. step_ui.
  assert (Hnone :
    String.eqb (toLowerCase investor)
      (toLowerCase (or_else (ExitVaultUI.account snap) "")) = false \/
    truthy_obj (ExitVaultUI.contract snap)
    && truthy_ostr (ExitVaultUI.account snap) = false ->
    forall u t0,
      String.eqb (toLowerCase investor)
        (toLowerCase (or_else (ExitVaultUI.account snap) "")) = true ->
      ExitVaultUI.fetchBalance ethers (ExitVaultUI.contract snap)
        (ExitVaultUI.account snap) u t0 = (Ok tt, u, t0)).
  { intros Hskip u t0 Heq. destruct Hskip as [Hne|Hfalsy]; [congruence|].
    unfold ExitVaultUI.fetchBalance.
    destruct (ExitVaultUI.contract snap), (ExitVaultUI.account snap) as [a|];
      cbn in *; try done. by rewrite Hfalsy. }
  destruct (String.eqb _ _).
  - split_and!.
    1-10:
      match goal with
      | |- context [ExitVaultUI.fetchBalance ?e ?c ?ad ?st ?tr] =>
          destruct (fetchBalance_frame e c ad st tr)
            as (s' & t' & -> & Hlog & Hin & Hacc & Hcon & _)
      end; cbn -[take] in *; congruence.
    intros Hskip. by rewrite !(Hnone Hskip).
  - by split_and!.
Qed.


Lemma event_listener_logs_witness :
  let page := Mock.ui_connected Mock.vault in
  let r :=
    ExitVaultUI.onInvestEvent Mock.ethers Mock.toLowerCase ExitVaultUI.initial
      "10:01:00" Mock.me 1500000000000000000 page [] in
  trace r = [] /\
  ExitVaultUI.balanceEth (final r) = ExitVaultUI.balanceEth page /\
  ExitVaultUI.txs (final r)
  = [{| ExitVaultUI.e_hash :=
          "event:0x00000000000000000000000000000000000000a1:1500000000000000000";
        ExitVaultUI.e_note :=
          "Invest event 0x00000000000000000000000000000000000000a1 +1.5 ETH";
        ExitVaultUI.e_time := "10:01:00" |}].
Proof.
  intros page r.
  destruct (event_listener_logs Mock.ethers Mock.toLowerCase
              ExitVaultUI.initial page "10:01:00" Mock.me
              1500000000000000000 []) as (_ & _ & Hnone).
  destruct (Hnone (or_intror eq_refl)) as (Hr & _).
  fold page r in Hr. rewrite Hr. vm_compute. by split_and!.
Defined.


(** ** The connector of [ExitVault.jsx] *)

(** What [listenEvents] leaves in the trace: the removal for the Withdraw
    event is skipped when the one for the Invest event throws, and both
    subscriptions follow in every case. *)
Lemma listenEvents_run c (s : ExitVaultUI.state) t :
  ExitVaultUI.listenEvents (Some c) s t
  = (Ok tt, s,
     t ++ RemoveAllListeners c "Invest"
          :: match c_removeAllListeners c "Invest" with
             | Ok _ => [RemoveAllListeners c "Withdraw"]
             | Throw _ => []
             end
          ++ [Subscribe c "Invest"; Subscribe c "Withdraw"]).
Proof.
  unfold ExitVaultUI.listenEvents, try_catch, call, bind, emit, eval, ret.
  destruct (c_removeAllListeners c "Invest") as [[]|e]; cbn.
  - destruct (c_removeAllListeners c "Withdraw") as [[]|e]; cbn;
      by rewrite <- !app_assoc.
  - by rewrite <- !app_assoc.
Qed.

(** X18. When the handshake succeeds, the connector of [ExitVault.jsx]
    returns normally with provider, signer, account and contract handle
    installed; with a non-empty address it reads the balance once and
    then always subscribes to both contract events, also when dropping
    the earlier listeners throws.  It ends with the balance read and
    "Wallet connected: <address>", or, when the read fails, with the
    earlier balance and the message of the failed read.  The log and the
    input are untouched. *)
Theorem connectWallet_ui_connects ethers prov conn
  (u : ExitVaultUI.state) (t : list event) :
  handshake ethers prov = Ok conn ->
  truthy_str (conn_address conn) = true ->
  let q := ExitVaultUI.connectWallet ethers (Some prov) u t in
  let c := conn_contract conn in
  let addr := conn_address conn in
  outcome q = Ok tt /\
  (ExitVaultUI.provider (final q) = Some prov /\
   ExitVaultUI.signer (final q) = Some (conn_signer conn) /\
   ExitVaultUI.account (final q) = Some addr /\
   ExitVaultUI.contract (final q) = Some c) /\
  (ExitVaultUI.txs (final q) = ExitVaultUI.txs u /\
   ExitVaultUI.inputEth (final q) = ExitVaultUI.inputEth u) /\
  trace q
  = t ++ handshake_calls
      ++ CallGetBalance c addr
         :: RemoveAllListeners c "Invest"
         :: match c_removeAllListeners c "Invest" with
            | Ok _ => [RemoveAllListeners c "Withdraw"]
            | Throw _ => []
            end
         ++ [Subscribe c "Invest"; Subscribe c "Withdraw"] /\
  match c_getBalance c addr with
  | Ok bal =>
      ExitVaultUI.balanceEth (final q) = formatEther ethers bal /\
      ExitVaultUI.status (final q) = "Wallet connected: " +:+ addr
  | Throw err =>
      ExitVaultUI.balanceEth (final q) = ExitVaultUI.balanceEth u /\
      ExitVaultUI.status (final q)
      = "Failed to fetch balance: "
        +:+ or_else (err_message err) (err_text err)
  end.
Proof.
  intros Hconn Haddr q c addr. subst q c addr.
  unfold handshake in Hconn.
  unfold ExitVaultUI.connectWallet, detached, try_catch, call, bind, emit,
    eval, ret, ExitVaultUI.setProvider, ExitVaultUI.setSigner,
    ExitVaultUI.setAccount, ExitVaultUI.setContract, ExitVaultUI.setStatus,
    modify.
  destruct (send_eth_requestAccounts prov) as [[]|]; [|done].
  destruct (getSigner prov) as [sg|]; [|done].
  destruct (getAddress sg) as [addr|]; [|done].
  destruct (newContract ethers sg) as [vault|]; [|done].
  injection Hconn as <-. cbn in Haddr.
  cbn -[ExitVaultUI.fetchBalance ExitVaultUI.listenEvents].
  rewrite fetchBalance_run by done. rewrite listenEvents_run.
  cbn. rewrite <- !app_assoc. cbn.
  split_and!; try done; by destruct (c_getBalance vault addr).
Qed.

Lemma connectWallet_ui_connects_witness :
  let q :=
    ExitVaultUI.connectWallet Mock.ethers (Some Mock.wallet)
      ExitVaultUI.initial [] in
  ExitVaultUI.account (final q) = Some Mock.me /\
  ExitVaultUI.balanceEth (final q) = "1.5" /\
  ExitVaultUI.status (final q)
  = "Wallet connected: 0x00000000000000000000000000000000000000a1" /\
  trace q
  = [RequestAccounts; GetSigner; GetAddress; NewContract;
     CallGetBalance Mock.vault Mock.me;
     RemoveAllListeners Mock.vault "Invest";
     RemoveAllListeners Mock.vault "Withdraw";
     Subscribe Mock.vault "Invest"; Subscribe Mock.vault "Withdraw"].
Proof.
  intros q.
  destruct (connectWallet_ui_connects Mock.ethers Mock.wallet
              {| conn_provider := Mock.wallet; conn_signer := Mock.signer;
                 conn_contract := Mock.vault; conn_address := Mock.me |}
              ExitVaultUI.initial [] eq_refl eq_refl)
    as (_ & (_ & _ & Hacc & _) & _ & Htr & Hbal & Hst).
  by split_and!.
Defined.




(** ** Invariants of the dashboard *)


